(** * Cloud Build plan generation (versioning/scripts/cloudbuild/main.go)

    A shallow embedding of the generator that turns a version manifest
    ([versions.Spec]) and a set of command-line options into the data fed to
    the Cloud Build template, together with the template itself.

    Strings are [string], slices are [list], the two Go maps ([dirs] and
    [included]) are [gmap string bool] read with Go's zero-value lookup, and
    the two ways the program can stop ([log.Fatalf] and a run-time panic) are
    the error side of a small result monad. *)

From stdpp Require Import base option list gmap strings pretty.
From Stdlib Require Import ZArith Lia Ascii.

Local Open Scope string_scope.
Local Open Scope list_scope.

(** ** Abnormal termination *)

(** [log.Fatalf] prints its message and exits; [check] panics on an I/O
    error; and building a step from an empty [images] slice is a run-time
    panic.  The step is built from [images[0]] and [images[1:]] in one
    composite literal, and what the program reports on an empty slice is
    the slice expression: "slice bounds out of range [1:0]". *)
Inductive failure : Type :=
  | LogFatal (msg : string)
  | SliceBoundsOutOfRange
  | CheckPanic (dir : string).

Inductive result (A : Type) : Type :=
  | Ok (a : A)
  | Err (e : failure).
Arguments Ok {A} a.
Arguments Err {A} e.

Global Instance result_ret : MRet result := λ A a, Ok a.
Global Instance result_bind : MBind result := λ A B f r,
  match r with
  | Ok a => f a
  | Err e => Err e
  end.

Definition succeeds {A} (r : result A) : bool :=
  match r with Ok _ => true | Err _ => false end.

(** ** Go map reads *)

(** [m[k]] on a [map[string]bool]: a missing key reads as [false]. *)
Definition index (m : gmap string bool) (k : string) : bool :=
  default false (m !! k).

(** ** The manifest *)

Module versions.

(** Modelled from the spec: the declarations of [versions.Version] and
    [versions.Spec] live in the imported package
    [runtimes-common/versioning/versions].  The fields are those of an
    image definition that main.go reads, at the types it uses them at. *)
Record Version : Type := {
  Dir : string;
  Repo : string;
  Tags : list string;
  Builder : bool;
  BuilderImage : string;
  BuilderArgs : list string;
  ImageNameFromBuilder : string;
  ExcludeTests : list string
}.

Record Spec : Type := { Versions : list Version }.

End versions.

(** ** Options *)

Module opts.

Record cloudBuildOptions : Type := {
  Directories : list string;
  RunTests : bool;
  RequireNewTags : bool;
  FirstTagOnly : bool;
  TimeoutSeconds : Z;
  MachineType : string;
  EnableParallel : bool;
  ForceParallel : bool
}.

End opts.

(** ** Template data *)

Record imageBuildTemplateData : Type := {
  Directory : string;
  Tag : string;
  Aliases : list string;
  StructureTests : list string;
  FunctionalTests : list string;
  Builder : bool;
  BuilderImage : string;
  BuilderArgs : list string;
  ImageNameFromBuilder : string
}.

Record cloudBuildTemplateData : Type := {
  RequireNewTags : bool;
  Parallel : bool;
  ImageBuilds : list imageBuildTemplateData;
  AllImages : list string;
  TimeoutSeconds : Z;
  MachineType : string
}.

Definition testsDir : string := "tests".
Definition functionalTestsDir : string := "tests/functional_tests".
Definition structureTestsDir : string := "tests/structure_tests".
Definition testJsonSuffix : string := "_test.json".
Definition testYamlSuffix : string := "_test.yaml".
Definition workspacePrefix : string := "/workspace/".

(** ** Scheduling mode *)

Definition shouldParallelize (options : opts.cloudBuildOptions)
    (numberOfVersions numberOfTests : nat) : bool :=
  if opts.ForceParallel options then true
  else if negb (opts.EnableParallel options) then false
  else (1 <? numberOfVersions)%nat || (1 <? numberOfTests)%nat.

(** ** The test catalog on disk *)

Record fileInfo : Type := { Name : string; IsDir : bool }.

(** What [os.Stat] followed by [ioutil.ReadDir] can observe of a path. *)
Inductive dirState : Type :=
  | NoDirectory                       (* Stat fails, or the path is a file *)
  | Unreadable                        (* Stat succeeds, ReadDir fails *)
  | Listing (files : list fileInfo).  (* ReadDir succeeds *)

Definition fileSystem : Type := string → dirState.

(** [strings.HasSuffix]. *)
Definition HasSuffix (s suffix : string) : bool :=
  (String.length suffix <=? String.length s)%nat
  && String.eqb
       (String.substring (String.length s - String.length suffix)
                  (String.length suffix) s)
       suffix.

Fixpoint readLoop (testsDir : string) (files : list fileInfo)
    (tests : list string) : list string :=
  match files with
  | [] => tests
  | f :: files' =>
      if IsDir f then readLoop testsDir files' tests
      else if HasSuffix (Name f) testJsonSuffix
              || HasSuffix (Name f) testYamlSuffix
      then readLoop testsDir files'
             (tests ++ [workspacePrefix +:+ (testsDir +:+ "/" +:+ Name f)])
      else readLoop testsDir files' tests
  end.

Definition readTests (fs : fileSystem) (testsDir : string)
    : result (list string) :=
  match fs testsDir with
  | NoDirectory => Ok []
  | Unreadable => Err (CheckPanic testsDir)
  | Listing files => Ok (readLoop testsDir files [])
  end.

(** ** Test resolution *)

Definition markAll (tests : list string) (included : gmap string bool)
    : gmap string bool :=
  foldl (λ m test, <[test := true]> m) included tests.

Fixpoint excludeLoop (excludeTests : list string)
    (included : gmap string bool) : result (gmap string bool) :=
  match excludeTests with
  | [] => Ok included
  | excluded :: rest =>
      if negb (index included (workspacePrefix +:+ excluded))
      then Err (LogFatal ("No such test to exclude: " +:+ excluded))
      else excludeLoop rest
             (<[workspacePrefix +:+ excluded := false]> included)
  end.

Definition filterTests (structureTests functionalTests : list string)
    (version : versions.Version) : result (list string * list string) :=
  let included := markAll (structureTests ++ functionalTests) ∅ in
  included ← excludeLoop (versions.ExcludeTests version) included;
  Ok (List.filter (index included) structureTests,
      List.filter (index included) functionalTests).

(** ** Building the template data *)

(** The inner loop over [v.Tags]: one full image name per tag, stopping
    after the first one when [FirstTagOnly] is set. *)
Fixpoint tagLoop (registry repo : string) (firstTagOnly : bool)
    (tags : list string) (images : list string) : list string :=
  match tags with
  | [] => images
  | t :: tags' =>
      let images := images ++ [registry +:+ "/" +:+ repo +:+ ":" +:+ t] in
      if firstTagOnly then images
      else tagLoop registry repo firstTagOnly tags' images
  end.

Definition appendAllImages (data : cloudBuildTemplateData)
    (images : list string) : cloudBuildTemplateData :=
  {| RequireNewTags := RequireNewTags data;
     Parallel := Parallel data;
     ImageBuilds := ImageBuilds data;
     AllImages := AllImages data ++ images;
     TimeoutSeconds := TimeoutSeconds data;
     MachineType := MachineType data |}.

Definition appendImageBuild (data : cloudBuildTemplateData)
    (b : imageBuildTemplateData) : cloudBuildTemplateData :=
  {| RequireNewTags := RequireNewTags data;
     Parallel := Parallel data;
     ImageBuilds := ImageBuilds data ++ [b];
     AllImages := AllImages data;
     TimeoutSeconds := TimeoutSeconds data;
     MachineType := MachineType data |}.

(** The main loop over [spec.Versions]. *)
Fixpoint versionLoop (registry : string) (options : opts.cloudBuildOptions)
    (dirs : gmap string bool) (structureTests functionalTests : list string)
    (vs : list versions.Version) (data : cloudBuildTemplateData)
    : result cloudBuildTemplateData :=
  match vs with
  | [] => Ok data
  | v :: vs' =>
      if negb (index dirs (versions.Dir v))
      then versionLoop registry options dirs structureTests functionalTests
             vs' data
      else
        let images :=
          tagLoop registry (versions.Repo v) (opts.FirstTagOnly options)
            (versions.Tags v) [] in
        let data :=
          if negb (versions.Builder v) then appendAllImages data images
          else data in
        '(versionSTests, versionFTests) ←
          filterTests structureTests functionalTests v;
        if negb (String.eqb (versions.BuilderImage v) "") then
          let BuilderImageFull :=
            registry +:+ "/" +:+ versions.BuilderImage v in
          versionLoop registry options dirs structureTests functionalTests
            vs'
            (appendImageBuild data
               {| Directory := versions.Dir v;
                  Tag := versions.ImageNameFromBuilder v;
                  Aliases := images;
                  StructureTests := versionSTests;
                  FunctionalTests := versionFTests;
                  Builder := versions.Builder v;
                  BuilderImage := BuilderImageFull;
                  BuilderArgs := versions.BuilderArgs v;
                  ImageNameFromBuilder := versions.ImageNameFromBuilder v |})
        else
          match images with
          | [] => Err SliceBoundsOutOfRange
          | image0 :: images1 =>
              versionLoop registry options dirs structureTests
                functionalTests vs'
                (appendImageBuild data
                   {| Directory := versions.Dir v;
                      Tag := image0;
                      Aliases := images1;
                      StructureTests := versionSTests;
                      FunctionalTests := versionFTests;
                      Builder := versions.Builder v;
                      BuilderImage := versions.BuilderImage v;
                      BuilderArgs := versions.BuilderArgs v;
                      ImageNameFromBuilder :=
                        versions.ImageNameFromBuilder v |})
          end
  end.

(** The set of directories to operate on. *)
Definition selectDirs (spec : versions.Spec)
    (options : opts.cloudBuildOptions) : gmap string bool :=
  if (0 <? length (opts.Directories options))%nat
  then foldl (λ dirs d, <[d := true]> dirs) ∅ (opts.Directories options)
  else foldl (λ dirs v, <[versions.Dir v := true]> dirs) ∅
         (versions.Versions spec).

(** The tests to run: structure tests (legacy root directory first), then
    functional tests; none at all unless [RunTests] is set. *)
Definition extractTests (fs : fileSystem) (options : opts.cloudBuildOptions)
    : result (list string * list string) :=
  if opts.RunTests options then
    legacy ← readTests fs testsDir;
    structure ← readTests fs structureTestsDir;
    functional ← readTests fs functionalTestsDir;
    Ok (([] ++ legacy) ++ structure, [] ++ functional)
  else Ok ([], []).

Definition newCloudBuildTemplateData (fs : fileSystem) (registry : string)
    (spec : versions.Spec) (options : opts.cloudBuildOptions)
    : result cloudBuildTemplateData :=
  let data :=
    {| RequireNewTags := opts.RequireNewTags options;
       Parallel := false;
       ImageBuilds := [];
       AllImages := [];
       TimeoutSeconds := 0%Z;
       MachineType := "" |} in
  let dirs := selectDirs spec options in
  '(structureTests, functionalTests) ← extractTests fs options;
  data ← versionLoop registry options dirs structureTests functionalTests
           (versions.Versions spec) data;
  Ok {| RequireNewTags := RequireNewTags data;
        Parallel :=
          shouldParallelize options (length (versions.Versions spec))
            (length functionalTests);
        ImageBuilds := ImageBuilds data;
        AllImages := AllImages data;
        TimeoutSeconds := opts.TimeoutSeconds options;
        MachineType := opts.MachineType options |}.

(** ** The Cloud Build template *)

(** The template writes YAML text.  Its step blocks are kept here as
    records (one per [- name:] entry) next to the printer that lays them
    out, so that statements can speak about a step's [waitFor] and [id]
    and the text is still produced line for line. *)

Module yaml.

Inductive layout : Type :=
  | DockerBuild      (* args as a block list, waitFor inline *)
  | BuilderRun       (* args printed inline from the Go slice *)
  | StructureTest
  | FunctionalTest
  | AliasTag.        (* waitFor as a block list *)

Record BuildStep : Type := {
  layoutOf : layout;
  name : string;
  args : list string;
  waitFor : option (list string);
  id : option string
}.

Definition quoted (s : string) : string := "'" +:+ s +:+ "'".
Definition listItem (s : string) : string := "      - " +:+ quoted s.

(** How text/template prints a []string: [[a b c]]. *)
Definition goSlice (l : list string) : string :=
  "[" +:+ String.concat " " l +:+ "]".

Definition printArgs (s : BuildStep) : list string :=
  match layoutOf s with
  | BuilderRun => ["    args: " +:+ goSlice (args s)]
  | _ => "    args:" :: (listItem <$> args s)
  end.

Definition printWaitFor (s : BuildStep) : list string :=
  match waitFor s with
  | None => []
  | Some ids =>
      match layoutOf s with
      | AliasTag => "    waitFor:" :: (listItem <$> ids)
      | _ =>
          ["    waitFor: [" +:+ String.concat ", " (quoted <$> ids) +:+ "]"]
      end
  end.

Definition printId (s : BuildStep) : list string :=
  match id s with
  | None => []
  | Some i => ["    id: " +:+ quoted i]
  end.

Definition printStep (s : BuildStep) : list string :=
  ("  - name: " +:+ name s) :: printArgs s ++ printWaitFor s ++ printId s.

End yaml.

(** Scheduling identifiers. *)
Definition imageId (tag : string) : string := "image-" +:+ tag.
Definition testId (primary : string) (testIndex : nat) : string :=
  "test-" +:+ primary +:+ "-" +:+ pretty testIndex.

(** [# Build images]: the body of [range .ImageBuilds]. *)
Definition buildStep (parallel : bool) (b : imageBuildTemplateData)
    : yaml.BuildStep :=
  if Builder b then
    {| yaml.layoutOf := yaml.DockerBuild;
       yaml.name := "gcr.io/cloud-builders/docker";
       yaml.args := ["build"; "--tag=" +:+ Tag b; Directory b];
       yaml.waitFor := if parallel then Some ["-"] else None;
       yaml.id := if parallel then Some (imageId (Tag b)) else None |}
  else if negb (String.eqb (BuilderImage b) "") then
    {| yaml.layoutOf := yaml.BuilderRun;
       yaml.name := BuilderImage b;
       yaml.args := BuilderArgs b;
       yaml.waitFor :=
         if parallel then Some [imageId (BuilderImage b)] else None;
       yaml.id := if parallel then Some (imageId (Tag b)) else None |}
  else
    {| yaml.layoutOf := yaml.DockerBuild;
       yaml.name := "gcr.io/cloud-builders/docker";
       yaml.args := ["build"; "--tag=" +:+ Tag b; Directory b];
       yaml.waitFor := if parallel then Some ["-"] else None;
       yaml.id := if parallel then Some (imageId (Tag b)) else None |}.

(** [# Run structure tests]: these steps get neither [waitFor] nor [id]. *)
Definition structureTestStep (primary test : string) : yaml.BuildStep :=
  {| yaml.layoutOf := yaml.StructureTest;
     yaml.name := "gcr.io/gcp-runtimes/structure_test";
     yaml.args := ["--image"; primary; "--config"; test];
     yaml.waitFor := None;
     yaml.id := None |}.

Definition structureTestSteps (image : imageBuildTemplateData)
    : list yaml.BuildStep :=
  structureTestStep (Tag image) <$> StructureTests image.

(** [# Run functional tests]. *)
Definition functionalTestStep (parallel : bool) (primary : string)
    (imageIndex testIndex : nat) (test : string) : yaml.BuildStep :=
  {| yaml.layoutOf := yaml.FunctionalTest;
     yaml.name := "gcr.io/$PROJECT_ID/functional_test";
     yaml.args :=
       ["--verbose"; "--vars"; "IMAGE=" +:+ primary; "--vars";
        "UNIQUE=" +:+ pretty imageIndex +:+ "-" +:+ pretty testIndex;
        "--test_spec"; test];
     yaml.waitFor := if parallel then Some [imageId primary] else None;
     yaml.id := if parallel then Some (testId primary testIndex) else None |}.

Definition functionalTestSteps (parallel : bool) (imageIndex : nat)
    (image : imageBuildTemplateData) : list yaml.BuildStep :=
  imap (functionalTestStep parallel (Tag image) imageIndex)
    (FunctionalTests image).

(** [# Add alias tags]. *)
Definition aliasStep (parallel : bool) (image : imageBuildTemplateData)
    (alias : string) : yaml.BuildStep :=
  {| yaml.layoutOf := yaml.AliasTag;
     yaml.name := "gcr.io/cloud-builders/docker";
     yaml.args := ["tag"; Tag image; alias];
     yaml.waitFor :=
       if parallel
       then Some (imageId (Tag image)
                  :: imap (λ testIndex _, testId (Tag image) testIndex)
                       (FunctionalTests image))
       else None;
     yaml.id := None |}.

Definition aliasSteps (parallel : bool) (image : imageBuildTemplateData)
    : list yaml.BuildStep :=
  aliasStep parallel image <$> Aliases image.

(** The comment that opens a test section is written at image index 0,
    test index 0, that is, only when the first image has a test. *)
Definition sectionHeader (title : string)
    (perImage : list (list yaml.BuildStep)) : list string :=
  match perImage with
  | (_ :: _) :: _ => [""; title]
  | _ => []
  end.

Definition printSteps (steps : list yaml.BuildStep) : list string :=
  mjoin (yaml.printStep <$> steps).

Definition timeoutLines (data : cloudBuildTemplateData) : list string :=
  if negb (TimeoutSeconds data =? 0)%Z
  then [""; "timeout: " +:+ pretty (TimeoutSeconds data) +:+ "s"]
  else [].

Definition machineTypeLines (data : cloudBuildTemplateData) : list string :=
  if Parallel data
  then ["options:"; "  machineType: 'E2_HIGHCPU_8'"]
  else if negb (String.eqb (MachineType data) "")
  then ["options:"; "  machineType: " +:+ yaml.quoted (MachineType data)]
  else [].

(** Everything the template writes after the tag-existence section. *)
Definition templateBody (data : cloudBuildTemplateData) : list string :=
  let parallel := Parallel data in
  let sTests := structureTestSteps <$> ImageBuilds data in
  let fTests := imap (functionalTestSteps parallel) (ImageBuilds data) in
  [""; "# Build images"]
  ++ printSteps (buildStep parallel <$> ImageBuilds data)
  ++ sectionHeader "# Run structure tests" sTests
  ++ printSteps (mjoin sTests)
  ++ sectionHeader "# Run functional tests" fTests
  ++ printSteps (mjoin fTests)
  ++ [""; "# Add alias tags"]
  ++ printSteps (mjoin (aliasSteps parallel <$> ImageBuilds data))
  ++ [""; "images:"]
  ++ ((λ image, "  - " +:+ yaml.quoted image) <$> AllImages data)
  ++ timeoutLines data
  ++ machineTypeLines data.

(** Executing the template.  The tag-existence section ranges over
    [.Images], and [cloudBuildTemplateData] has no field of that name (the
    list is [AllImages]): when [RequireNewTags] is set, text/template stops
    there with an error and what was written so far is all the output. *)
Inductive execError : Type :=
  | CantEvaluateField (field : string).

Definition executeTemplate (data : cloudBuildTemplateData)
    : list string * option execError :=
  if RequireNewTags data
  then (["steps:"; "# Check if tags exist."],
        Some (CantEvaluateField "Images"))
  else ("steps:" :: templateBody data, None).

Definition newline : string := String (Ascii.ascii_of_nat 10) EmptyString.

(** [renderCloudBuildConfig] drops the error of [Execute] and returns the
    buffer; a completed execution ends with a newline. *)
Definition renderCloudBuildConfig (fs : fileSystem) (registry : string)
    (spec : versions.Spec) (options : opts.cloudBuildOptions)
    : result string :=
  data ← newCloudBuildTemplateData fs registry spec options;
  let '(lines, err) := executeTemplate data in
  Ok (String.concat newline lines
      +:+ match err with None => newline | Some _ => "" end).

(** ** The command line *)

(** [strings.Contains]. *)
Fixpoint Contains (s substr : string) : bool :=
  String.prefix substr s
  || match s with
     | EmptyString => false
     | String _ s' => Contains s' substr
     end.

(** [strings.Replace(s, old, new, 1)]: the first occurrence of [old], if
    there is one, is replaced. *)
Fixpoint ReplaceOnce (s old new : string) : string :=
  if String.prefix old s
  then new +:+ String.substring (String.length old)
                 (String.length s - String.length old) s
  else match s with
       | EmptyString => EmptyString
       | String c s' => String c (ReplaceOnce s' old new)
       end.

(** [strings.Split] with a one-byte separator: the pieces between the
    separators, a single empty piece for the empty string. *)
Fixpoint Split (s : string) (sep : Ascii.ascii) : list string :=
  match s with
  | EmptyString => [EmptyString]
  | String c s' =>
      if Ascii.eqb c sep then EmptyString :: Split s' sep
      else match Split s' sep with
           | piece :: pieces => String c piece :: pieces
           | [] => [String c EmptyString]
           end
  end.

(** The values of the options after [config.Parse()]. *)
Module flags.

Record config : Type := {
  registry : string;
  dirs : string;
  tests : bool;
  new_tags : bool;
  first_tag : bool;
  timeout : Z;
  machineType : string;
  enable_parallel : bool;
  force_parallel : bool
}.

End flags.

(** [main], with the parsed options, the loaded manifest and the file
    system as arguments; the result is what is printed. *)
Definition main (cfg : flags.config) (spec : versions.Spec) (fs : fileSystem)
    : result string :=
  if String.eqb (flags.registry cfg) "" then
    Err (LogFatal "--registry flag is required")
  else
    let registry :=
      if Contains (flags.registry cfg) ":"
      then ReplaceOnce (flags.registry cfg) ":" "/"
      else flags.registry cfg in
    let dirs :=
      if negb (String.eqb (flags.dirs cfg) "")
      then Split (flags.dirs cfg) ","%char
      else [] in
    let options :=
      {| opts.Directories := dirs;
         opts.RunTests := flags.tests cfg;
         opts.RequireNewTags := flags.new_tags cfg;
         opts.FirstTagOnly := flags.first_tag cfg;
         opts.TimeoutSeconds := flags.timeout cfg;
         opts.MachineType := flags.machineType cfg;
         opts.EnableParallel := flags.enable_parallel cfg;
         opts.ForceParallel := flags.force_parallel cfg |} in
    result ← renderCloudBuildConfig fs registry spec options;
    Ok (result +:+ newline).

(** * Vocabulary of the statements *)

(** The catalog path an exclusion name stands for. *)
Definition catalogPath (excluded : string) : string :=
  workspacePrefix +:+ excluded.

(** Whether a catalog test is named by the version's exclusion list. *)
Definition excludedBy (v : versions.Version) (test : string) : bool :=
  bool_decide (test ∈ catalogPath <$> versions.ExcludeTests v).

(** The catalog tests that are not excluded, in catalog order. *)
Definition kept (v : versions.Version) (tests : list string) : list string :=
  List.filter (λ test, negb (excludedBy v test)) tests.

(** The full image name [fmt.Sprintf("%v/%v:%v", registry, v.Repo, t)]. *)
Definition fullName (registry repo tag : string) : string :=
  registry +:+ "/" +:+ repo +:+ ":" +:+ tag.

(** The [images] slice computed for one version. *)
Definition expandTags (registry : string) (options : opts.cloudBuildOptions)
    (v : versions.Version) : list string :=
  tagLoop registry (versions.Repo v) (opts.FirstTagOnly options)
    (versions.Tags v) [].

(** The directory filter as the options state it: no directory given means
    every directory. *)
Definition inSelection (options : opts.cloudBuildOptions)
    (v : versions.Version) : bool :=
  match opts.Directories options with
  | [] => true
  | _ :: _ => bool_decide (versions.Dir v ∈ opts.Directories options)
  end.

(** The versions of the manifest the main loop does not skip. *)
Definition selected (spec : versions.Spec) (options : opts.cloudBuildOptions)
    : list versions.Version :=
  List.filter (inSelection options) (versions.Versions spec).

(** What one iteration of the main loop appends to [ImageBuilds] for a
    version it does not skip. *)
Definition compileVersion (registry : string)
    (options : opts.cloudBuildOptions)
    (structureTests functionalTests : list string)
    (v : versions.Version) : result imageBuildTemplateData :=
  '(versionSTests, versionFTests) ←
    filterTests structureTests functionalTests v;
  if negb (String.eqb (versions.BuilderImage v) "") then
    Ok {| Directory := versions.Dir v;
          Tag := versions.ImageNameFromBuilder v;
          Aliases := expandTags registry options v;
          StructureTests := versionSTests;
          FunctionalTests := versionFTests;
          Builder := versions.Builder v;
          BuilderImage := registry +:+ "/" +:+ versions.BuilderImage v;
          BuilderArgs := versions.BuilderArgs v;
          ImageNameFromBuilder := versions.ImageNameFromBuilder v |}
  else
    match expandTags registry options v with
    | [] => Err SliceBoundsOutOfRange
    | image0 :: images1 =>
        Ok {| Directory := versions.Dir v;
              Tag := image0;
              Aliases := images1;
              StructureTests := versionSTests;
              FunctionalTests := versionFTests;
              Builder := versions.Builder v;
              BuilderImage := versions.BuilderImage v;
              BuilderArgs := versions.BuilderArgs v;
              ImageNameFromBuilder := versions.ImageNameFromBuilder v |}
    end.

(** What the iterations append to [AllImages]: the names of the selected
    versions that are not builders. *)
Definition shippable (registry : string) (options : opts.cloudBuildOptions)
    (vs : list versions.Version) : list string :=
  mjoin (expandTags registry options
           <$> List.filter (λ v, negb (versions.Builder v)) vs).

Definition extendData (data : cloudBuildTemplateData)
    (steps : list imageBuildTemplateData) (images : list string)
    : cloudBuildTemplateData :=
  {| RequireNewTags := RequireNewTags data;
     Parallel := Parallel data;
     ImageBuilds := ImageBuilds data ++ steps;
     AllImages := AllImages data ++ images;
     TimeoutSeconds := TimeoutSeconds data;
     MachineType := MachineType data |}.

(** The structure tests and the functional tests found on disk (none unless
    [RunTests] is set, and none when reading them fails). *)
Definition discoveredTests (fs : fileSystem)
    (options : opts.cloudBuildOptions) : list string * list string :=
  match extractTests fs options with
  | Ok tests => tests
  | Err _ => ([], [])
  end.

(** A version the main loop can turn into a step: its exclusions name
    catalog tests, none twice, and it has a tag to build unless a builder
    image names the result. *)
Definition compilable (catalog : list string * list string)
    (v : versions.Version) : Prop :=
  NoDup (versions.ExcludeTests v)
  ∧ (∀ e, e ∈ versions.ExcludeTests v
          → catalogPath e ∈ catalog.1 ++ catalog.2)
  ∧ (versions.BuilderImage v = "" → versions.Tags v ≠ []).

(** The step of the plan that stands for a version. *)
Definition stepFor (registry : string) (options : opts.cloudBuildOptions)
    (catalog : list string * list string)
    (v : versions.Version) (b : imageBuildTemplateData) : Prop :=
  Directory b = versions.Dir v
  ∧ Builder b = versions.Builder v
  ∧ BuilderArgs b = versions.BuilderArgs v
  ∧ ImageNameFromBuilder b = versions.ImageNameFromBuilder v
  ∧ StructureTests b = kept v catalog.1
  ∧ FunctionalTests b = kept v catalog.2
  ∧ (if decide (versions.BuilderImage v = "")
     then Tag b :: Aliases b = expandTags registry options v
          ∧ BuilderImage b = ""
     else Tag b = versions.ImageNameFromBuilder v
          ∧ Aliases b = expandTags registry options v
          ∧ BuilderImage b = registry +:+ "/" +:+ versions.BuilderImage v).



(** The catalog path [readTests] gives a file of a directory. *)
Definition testPath (dir : string) (f : fileInfo) : string :=
  workspacePrefix +:+ (dir +:+ "/" +:+ Name f).

(** The directory entries [readTests] keeps. *)
Definition isTestFile (f : fileInfo) : bool :=
  negb (IsDir f)
  && (HasSuffix (Name f) testJsonSuffix || HasSuffix (Name f) testYamlSuffix).

(** The test paths of a directory; none when it is missing. *)
Definition found (fs : fileSystem) (dir : string) : list string :=
  match fs dir with
  | Listing files => testPath dir <$> List.filter isTestFile files
  | _ => []
  end.

Definition unreadable (fs : fileSystem) (dir : string) : bool :=
  match fs dir with
  | Unreadable => true
  | _ => false
  end.


(** The manifest without its builder-only versions. *)
Definition withoutBuilders (spec : versions.Spec) : versions.Spec :=
  {| versions.Versions :=
       List.filter (λ v, negb (versions.Builder v))
         (versions.Versions spec) |}.

(** The same options with another registry. *)
Definition withRegistry (cfg : flags.config) (registry : string)
    : flags.config :=
  {| flags.registry := registry;
     flags.dirs := flags.dirs cfg;
     flags.tests := flags.tests cfg;
     flags.new_tags := flags.new_tags cfg;
     flags.first_tag := flags.first_tag cfg;
     flags.timeout := flags.timeout cfg;
     flags.machineType := flags.machineType cfg;
     flags.enable_parallel := flags.enable_parallel cfg;
     flags.force_parallel := flags.force_parallel cfg |}.

(** The options [main] builds from the flags. *)
Definition optionsOf (cfg : flags.config) (directories : list string)
    : opts.cloudBuildOptions :=
  {| opts.Directories := directories;
     opts.RunTests := flags.tests cfg;
     opts.RequireNewTags := flags.new_tags cfg;
     opts.FirstTagOnly := flags.first_tag cfg;
     opts.TimeoutSeconds := flags.timeout cfg;
     opts.MachineType := flags.machineType cfg;
     opts.EnableParallel := flags.enable_parallel cfg;
     opts.ForceParallel := flags.force_parallel cfg |}.

(** The same options with another list of directories. *)
Definition withDirs (cfg : flags.config) (dirs : string) : flags.config :=
  {| flags.registry := flags.registry cfg;
     flags.dirs := dirs;
     flags.tests := flags.tests cfg;
     flags.new_tags := flags.new_tags cfg;
     flags.first_tag := flags.first_tag cfg;
     flags.timeout := flags.timeout cfg;
     flags.machineType := flags.machineType cfg;
     flags.enable_parallel := flags.enable_parallel cfg;
     flags.force_parallel := flags.force_parallel cfg |}.

(** What [main] prints for a rendered configuration. *)
Definition printed (r : result string) : result string :=
  text ← r; Ok (text +:+ newline).


(** * Example manifests *)

Module examples.

Definition plain (dir repo : string) (tags : list string)
    : versions.Version :=
  {| versions.Dir := dir; versions.Repo := repo; versions.Tags := tags;
     versions.Builder := false; versions.BuilderImage := "";
     versions.BuilderArgs := []; versions.ImageNameFromBuilder := "";
     versions.ExcludeTests := [] |}.

Definition excluding (v : versions.Version) (names : list string)
    : versions.Version :=
  {| versions.Dir := versions.Dir v; versions.Repo := versions.Repo v;
     versions.Tags := versions.Tags v;
     versions.Builder := versions.Builder v;
     versions.BuilderImage := versions.BuilderImage v;
     versions.BuilderArgs := versions.BuilderArgs v;
     versions.ImageNameFromBuilder := versions.ImageNameFromBuilder v;
     versions.ExcludeTests := names |}.

Definition builderOnly (v : versions.Version) : versions.Version :=
  {| versions.Dir := versions.Dir v; versions.Repo := versions.Repo v;
     versions.Tags := versions.Tags v;
     versions.Builder := true;
     versions.BuilderImage := versions.BuilderImage v;
     versions.BuilderArgs := versions.BuilderArgs v;
     versions.ImageNameFromBuilder := versions.ImageNameFromBuilder v;
     versions.ExcludeTests := versions.ExcludeTests v |}.

Definition builtWith (v : versions.Version) (builderImage : string)
    (builderArgs : list string) (imageName : string) : versions.Version :=
  {| versions.Dir := versions.Dir v; versions.Repo := versions.Repo v;
     versions.Tags := versions.Tags v;
     versions.Builder := versions.Builder v;
     versions.BuilderImage := builderImage;
     versions.BuilderArgs := builderArgs;
     versions.ImageNameFromBuilder := imageName;
     versions.ExcludeTests := versions.ExcludeTests v |}.

Definition defaults : opts.cloudBuildOptions :=
  {| opts.Directories := []; opts.RunTests := true;
     opts.RequireNewTags := false; opts.FirstTagOnly := false;
     opts.TimeoutSeconds := 0; opts.MachineType := "";
     opts.EnableParallel := false; opts.ForceParallel := false |}.

Definition withDirectories (o : opts.cloudBuildOptions)
    (dirs : list string) : opts.cloudBuildOptions :=
  {| opts.Directories := dirs; opts.RunTests := opts.RunTests o;
     opts.RequireNewTags := opts.RequireNewTags o;
     opts.FirstTagOnly := opts.FirstTagOnly o;
     opts.TimeoutSeconds := opts.TimeoutSeconds o;
     opts.MachineType := opts.MachineType o;
     opts.EnableParallel := opts.EnableParallel o;
     opts.ForceParallel := opts.ForceParallel o |}.

Definition withParallel (o : opts.cloudBuildOptions)
    (enable force : bool) : opts.cloudBuildOptions :=
  {| opts.Directories := opts.Directories o;
     opts.RunTests := opts.RunTests o;
     opts.RequireNewTags := opts.RequireNewTags o;
     opts.FirstTagOnly := opts.FirstTagOnly o;
     opts.TimeoutSeconds := opts.TimeoutSeconds o;
     opts.MachineType := opts.MachineType o;
     opts.EnableParallel := enable; opts.ForceParallel := force |}.

Definition withFirstTagOnly (o : opts.cloudBuildOptions)
    : opts.cloudBuildOptions :=
  {| opts.Directories := opts.Directories o;
     opts.RunTests := opts.RunTests o;
     opts.RequireNewTags := opts.RequireNewTags o;
     opts.FirstTagOnly := true;
     opts.TimeoutSeconds := opts.TimeoutSeconds o;
     opts.MachineType := opts.MachineType o;
     opts.EnableParallel := opts.EnableParallel o;
     opts.ForceParallel := opts.ForceParallel o |}.

Definition withRequireNewTags (o : opts.cloudBuildOptions)
    : opts.cloudBuildOptions :=
  {| opts.Directories := opts.Directories o;
     opts.RunTests := opts.RunTests o;
     opts.RequireNewTags := true;
     opts.FirstTagOnly := opts.FirstTagOnly o;
     opts.TimeoutSeconds := opts.TimeoutSeconds o;
     opts.MachineType := opts.MachineType o;
     opts.EnableParallel := opts.EnableParallel o;
     opts.ForceParallel := opts.ForceParallel o |}.

Definition file (name : string) : fileInfo :=
  {| Name := name; IsDir := false |}.

(** No test directory at all. *)
Definition noTests : fileSystem := λ _, NoDirectory.

(** One structure test and two functional tests. *)
Definition someTests : fileSystem := λ dir,
  if String.eqb dir structureTestsDir
  then Listing [file "a_test.yaml"; file "README.md"]
  else if String.eqb dir functionalTestsDir
  then Listing [file "b_test.json"; file "c_test.yaml"]
  else NoDirectory.

Definition foo : versions.Version := plain "a" "foo" ["1.0"; "latest"].
Definition bar : versions.Version := plain "b" "bar" ["2.0"].

Definition manifest (vs : list versions.Version) : versions.Spec :=
  {| versions.Versions := vs |}.

Definition someFlags : flags.config :=
  {| flags.registry := "gcr.io/p"; flags.dirs := "";
     flags.tests := false; flags.new_tags := false;
     flags.first_tag := false; flags.timeout := 0;
     flags.machineType := ""; flags.enable_parallel := false;
     flags.force_parallel := false |}.

End examples.

(** * Properties *)

(** ** Reading the Go maps *)

Section map_reads.

Lemma index_insert (m : gmap string bool) (k k' : string) (b : bool) :
  index (<[k := b]> m) k' = if decide (k = k') then b else index m k'.
Proof.
  unfold index. rewrite lookup_insert.
  destruct (decide (k = k')); reflexivity.
Qed.

Lemma index_empty (k : string) : index ∅ k = false.
Proof. unfold index. by rewrite lookup_empty. Qed.

(** A loop that sets [m[f x] = true] for every [x] of a slice. *)
Lemma index_mark {A} (f : A → string) (l : list A)
    (m : gmap string bool) (k : string) :
  index (foldl (λ m x, <[f x := true]> m) m l) k = true
  ↔ k ∈ f <$> l ∨ index m k = true.
Proof.
  revert m. induction l as [|x l IH]; intros m; simpl.
  - rewrite elem_of_nil. tauto.
  - rewrite IH, index_insert, elem_of_cons.
    destruct (decide (f x = k)) as [->|Hne]; [tauto|].
    split; [tauto|]. intros [[Heq|Hin]|Hm]; [congruence|tauto..].
Qed.

Lemma index_markAll (tests : list string) (k : string) :
  index (markAll tests ∅) k = true ↔ k ∈ tests.
Proof.
  unfold markAll.
  rewrite (index_mark (λ t : string, t) tests ∅ k).
  rewrite list_fmap_id, index_empty.
  split; [intros [?|?]; [done|discriminate] | tauto].
Qed.

End map_reads.

(** ** Test resolution *)

Section exclusion.

Local Instance catalogPath_inj : Inj (=) (=) catalogPath.
Proof. unfold catalogPath. apply _. Qed.

Lemma excludeLoop_Ok (excl : list string) (m m' : gmap string bool) :
  excludeLoop excl m = Ok m' →
  NoDup excl
  ∧ (∀ e, e ∈ excl → index m (catalogPath e) = true)
  ∧ (∀ k, index m' k
          = index m k && negb (bool_decide (k ∈ catalogPath <$> excl))).
Proof.
  revert m. induction excl as [|e excl IH]; intros m; cbn [excludeLoop].
  - intros [= <-]. split; [constructor|]. split.
    + intros e He. by apply elem_of_nil in He.
    + intros k. rewrite bool_decide_eq_false_2, andb_true_r; [done|].
      rewrite fmap_nil. apply not_elem_of_nil.
  - fold (catalogPath e).
    destruct (index m (catalogPath e)) eqn:Hm; cbn [negb]; [|discriminate].
    intros Hloop. destruct (IH _ Hloop) as (Hnd & Hall & Hidx).
    assert (Hfresh : e ∉ excl).
    { intros Hin. specialize (Hall e Hin).
      rewrite index_insert in Hall.
      destruct (decide (catalogPath e = catalogPath e)); congruence. }
    split; [by constructor|]. split.
    + intros e' [->|Hin]%elem_of_cons; [done|].
      specialize (Hall e' Hin). rewrite index_insert in Hall.
      destruct (decide (catalogPath e = catalogPath e')) as [Heq|]; [|done].
      apply (inj catalogPath) in Heq. by subst.
    + intros k. rewrite Hidx, index_insert, fmap_cons.
      destruct (decide (catalogPath e = k)) as [<-|Hne].
      * rewrite (bool_decide_eq_true_2 (_ ∈ _ :: _)); [|by left].
        by rewrite andb_false_r.
      * destruct (index m k); simpl; [|done]. f_equal.
        apply bool_decide_ext. rewrite elem_of_cons.
        split; [tauto | intros [?|?]; [congruence|done]].
Qed.

Lemma excludeLoop_total (excl : list string) (m : gmap string bool) :
  NoDup excl →
  (∀ e, e ∈ excl → index m (catalogPath e) = true) →
  ∃ m', excludeLoop excl m = Ok m'.
Proof.
  revert m. induction excl as [|e excl IH]; intros m Hnd Hall; simpl.
  - by eexists.
  - fold (catalogPath e). rewrite (Hall e) by left. simpl.
    apply NoDup_cons in Hnd as [Hfresh Hnd].
    apply IH; [done|]. intros e' Hin. rewrite index_insert.
    destruct (decide (catalogPath e = catalogPath e')) as [Heq|].
    + apply (inj catalogPath) in Heq. by subst.
    + apply Hall. by right.
Qed.

(** The loop stops in one way only: [log.Fatalf] on one of the names. *)
Lemma excludeLoop_Err (excl : list string) (m : gmap string bool)
    (e : failure) :
  excludeLoop excl m = Err e →
  ∃ x, x ∈ excl ∧ e = LogFatal ("No such test to exclude: " +:+ x).
Proof.
  revert m. induction excl as [|x excl IH]; intros m; simpl; [done|].
  destruct (index m (workspacePrefix +:+ x)); simpl.
  - intros (y & Hy & ->)%IH. exists y. split; [by right|done].
  - intros [= <-]. exists x. split; [by left|done].
Qed.

Lemma filterTests_Ok (st ft : list string) (v : versions.Version)
    (r : list string * list string) :
  filterTests st ft v = Ok r →
  NoDup (versions.ExcludeTests v)
  ∧ (∀ e, e ∈ versions.ExcludeTests v → catalogPath e ∈ st ++ ft)
  ∧ r = (kept v st, kept v ft).
Proof.
  unfold filterTests.
  destruct (excludeLoop _ _) as [m'|e] eqn:Hloop; simpl; [|done].
  intros [= <-]. apply excludeLoop_Ok in Hloop as (Hnd & Hall & Hidx).
  split; [done|]. split.
  - intros e He. by apply index_markAll, Hall.
  - assert (Hkeep : ∀ l, (∀ t, t ∈ l → t ∈ st ++ ft) →
              List.filter (index m') l = kept v l).
    { intros l Hl. apply List.filter_ext_in. intros t Ht.
      rewrite Hidx. unfold excludedBy.
      assert (index (markAll (st ++ ft) ∅) t = true) as ->; [|done].
      apply index_markAll, Hl. by apply list_elem_of_In. }
    f_equal; apply Hkeep; intros t Ht; set_solver.
Qed.

Lemma filterTests_total (st ft : list string) (v : versions.Version) :
  NoDup (versions.ExcludeTests v) →
  (∀ e, e ∈ versions.ExcludeTests v → catalogPath e ∈ st ++ ft) →
  filterTests st ft v = Ok (kept v st, kept v ft).
Proof.
  intros Hnd Hall.
  destruct (filterTests st ft v) as [r|e] eqn:Hf.
  - by apply filterTests_Ok in Hf as (_ & _ & ->).
  - exfalso. unfold filterTests in Hf.
    destruct (excludeLoop_total (versions.ExcludeTests v)
                (markAll (st ++ ft) ∅)) as [m' Hm']; [done| |].
    + intros x Hx. by apply index_markAll, Hall.
    + by rewrite Hm' in Hf.
Qed.

Lemma filterTests_Err (st ft : list string) (v : versions.Version)
    (e : failure) :
  filterTests st ft v = Err e →
  ∃ x, x ∈ versions.ExcludeTests v
       ∧ e = LogFatal ("No such test to exclude: " +:+ x).
Proof.
  unfold filterTests.
  destruct (excludeLoop _ _) as [m'|e'] eqn:Hloop; simpl; [done|].
  intros [= <-]. by eapply excludeLoop_Err.
Qed.

Lemma filterTests_stale (st ft : list string) (v : versions.Version)
    (x : string) :
  x ∈ versions.ExcludeTests v → catalogPath x ∉ st ++ ft →
  ∃ y, filterTests st ft v
       = Err (LogFatal ("No such test to exclude: " +:+ y)).
Proof.
  intros Hx Hstale.
  destruct (filterTests st ft v) as [r|e] eqn:Hf.
  - apply filterTests_Ok in Hf as (_ & Hall & _). by apply Hall in Hx.
  - apply filterTests_Err in Hf as (y & _ & ->). by exists y.
Qed.

End exclusion.

(** ** Tag expansion and directory selection *)

Section expansion.

Lemma tagLoop_spec (registry repo : string) (firstTagOnly : bool)
    (tags images : list string) :
  tagLoop registry repo firstTagOnly tags images
  = images ++ (fullName registry repo
                 <$> (if firstTagOnly then take 1 tags else tags)).
Proof.
  revert images. induction tags as [|t tags IH]; intros images; simpl.
  - destruct firstTagOnly; simpl; by rewrite app_nil_r.
  - destruct firstTagOnly; simpl; [done|].
    rewrite IH. simpl. by rewrite <- app_assoc.
Qed.

Lemma expandTags_spec (registry : string) (options : opts.cloudBuildOptions)
    (v : versions.Version) :
  expandTags registry options v
  = fullName registry (versions.Repo v)
      <$> (if opts.FirstTagOnly options then take 1 (versions.Tags v)
           else versions.Tags v).
Proof. unfold expandTags. by rewrite tagLoop_spec. Qed.

Lemma expandTags_nil (registry : string) (options : opts.cloudBuildOptions)
    (v : versions.Version) :
  expandTags registry options v = [] ↔ versions.Tags v = [].
Proof.
  rewrite expandTags_spec.
  destruct (opts.FirstTagOnly options), (versions.Tags v); simpl;
    split; congruence.
Qed.

Lemma selectDirs_spec (spec : versions.Spec)
    (options : opts.cloudBuildOptions) (v : versions.Version) :
  v ∈ versions.Versions spec →
  index (selectDirs spec options) (versions.Dir v) = inSelection options v.
Proof.
  intros Hv. unfold selectDirs, inSelection.
  destruct (opts.Directories options) as [|d ds] eqn:Hds.
  - change (0 <? length [])%nat with false. cbv iota.
    apply (index_mark versions.Dir). left.
    by apply list_elem_of_fmap_2.
  - change (0 <? length (d :: ds))%nat with true. cbv iota.
    pose proof (index_mark (λ d : string, d) (d :: ds) ∅ (versions.Dir v))
      as Hmark.
    rewrite list_fmap_id, index_empty in Hmark.
    destruct (bool_decide_reflect (versions.Dir v ∈ d :: ds)) as [Hin|Hout].
    + apply Hmark. by left.
    + apply not_true_is_false. intros Hidx.
      apply Hmark in Hidx as [?|?]; [done|discriminate].
Qed.

Lemma filter_selectDirs (spec : versions.Spec)
    (options : opts.cloudBuildOptions) :
  List.filter (λ v, index (selectDirs spec options) (versions.Dir v))
    (versions.Versions spec)
  = selected spec options.
Proof.
  apply List.filter_ext_in. intros v Hv.
  apply selectDirs_spec. by apply list_elem_of_In.
Qed.

End expansion.

(** ** The main loop, one version at a time *)

Section main_loop.

Variables (registry : string) (options : opts.cloudBuildOptions).
Variables (dirs : gmap string bool) (st ft : list string).

Let loop := versionLoop registry options dirs st ft.
Let pick (v : versions.Version) : bool := index dirs (versions.Dir v).
Let compiles (v : versions.Version) (b : imageBuildTemplateData) : Prop :=
  compileVersion registry options st ft v = Ok b.

Lemma versionLoop_cons (v : versions.Version) (vs : list versions.Version)
    (data : cloudBuildTemplateData) :
  loop (v :: vs) data
  = if pick v then
      b ← compileVersion registry options st ft v;
      loop vs
        (extendData data [b]
           (if versions.Builder v then []
            else expandTags registry options v))
    else loop vs data.
Proof.
  unfold loop, pick, compileVersion, extendData, expandTags.
  cbn [versionLoop].
  destruct (index dirs (versions.Dir v)); cbn [negb]; [|done].
  destruct (filterTests st ft v) as [[s f]|e]; [|done].
  cbn [mbind result_bind].
  destruct data as [rnt par builds imgs tmo mt].
  unfold appendImageBuild, appendAllImages.
  destruct (versions.Builder v), (String.eqb (versions.BuilderImage v) "");
    cbn [negb RequireNewTags Parallel ImageBuilds AllImages TimeoutSeconds
         MachineType];
    rewrite ?app_nil_r; try done;
    by destruct (tagLoop _ _ _ _ _).
Qed.

Lemma extendData_nil (data : cloudBuildTemplateData) :
  extendData data [] [] = data.
Proof. destruct data. unfold extendData. simpl. by rewrite !app_nil_r. Qed.

Lemma extendData_extendData (data : cloudBuildTemplateData)
    (s1 s2 : list imageBuildTemplateData) (i1 i2 : list string) :
  extendData (extendData data s1 i1) s2 i2
  = extendData data (s1 ++ s2) (i1 ++ i2).
Proof. unfold extendData. simpl. by rewrite !app_assoc. Qed.

(** The loop succeeds exactly when every version it does not skip
    compiles, and then appends their steps, in manifest order, and the
    names of the non-builders among them. *)
Lemma versionLoop_Ok (vs : list versions.Version)
    (data data' : cloudBuildTemplateData) :
  loop vs data = Ok data'
  ↔ ∃ steps,
      Forall2 compiles (List.filter pick vs) steps
      ∧ data' = extendData data steps
                  (shippable registry options (List.filter pick vs)).
Proof.
  revert data. induction vs as [|v vs IH]; intros data.
  - unfold loop, shippable. simpl. split.
    + intros [= <-]. exists []. split; [constructor|].
      by rewrite extendData_nil.
    + intros (steps & Hall & ->). apply Forall2_nil_inv_l in Hall as ->.
      by rewrite extendData_nil.
  - rewrite versionLoop_cons. cbn [List.filter].
    destruct (pick v) eqn:Hpick; [|apply IH].
    assert (Hship : shippable registry options (v :: List.filter pick vs)
              = (if versions.Builder v then []
                 else expandTags registry options v)
                ++ shippable registry options (List.filter pick vs)).
    { unfold shippable. cbn [List.filter].
      by destruct (versions.Builder v). }
    rewrite Hship. split.
    + destruct (compileVersion registry options st ft v) as [b|e] eqn:Hb;
        [|done].
      cbn [mbind result_bind]. intros (steps & Hall & ->)%IH.
      exists (b :: steps). split; [by constructor|].
      by rewrite extendData_extendData.
    + intros (steps & Hall & ->).
      apply Forall2_cons_inv_l in Hall as (b & steps' & Hb & Hall & ->).
      unfold compiles in Hb. rewrite Hb. cbn [mbind result_bind].
      apply IH. exists steps'. split; [done|].
      by rewrite extendData_extendData.
Qed.

(** The loop stops as soon as a version it does not skip fails. *)
Lemma versionLoop_Err (vs : list versions.Version)
    (data : cloudBuildTemplateData) (v : versions.Version) :
  v ∈ vs → pick v = true →
  succeeds (compileVersion registry options st ft v) = false →
  succeeds (loop vs data) = false.
Proof.
  intros Hv Hpick Hfail.
  destruct (loop vs data) as [data'|e] eqn:Hloop; [|done].
  apply versionLoop_Ok in Hloop as (steps & Hall & _).
  assert (Hin : v ∈ List.filter pick vs).
  { apply list_elem_of_In, List.filter_In. by rewrite <- list_elem_of_In. }
  apply list_elem_of_lookup in Hin as [i Hi].
  destruct (Forall2_lookup_l _ _ _ _ _ Hall Hi) as (b & _ & Hb).
  unfold compiles in Hb. by rewrite Hb in Hfail.
Qed.

End main_loop.

(** ** The compiled plan *)

Section plan.

Variables (fs : fileSystem) (registry : string).
Variables (spec : versions.Spec) (options : opts.cloudBuildOptions).

Lemma compileVersion_Ok (st ft : list string) (v : versions.Version)
    (b : imageBuildTemplateData) :
  compileVersion registry options st ft v = Ok b
  ↔ compilable (st, ft) v ∧ stepFor registry options (st, ft) v b.
Proof.
  unfold compileVersion, compilable, stepFor. cbn [fst snd]. split.
  - destruct (filterTests st ft v) as [[s f]|e] eqn:Hf; [|done].
    apply filterTests_Ok in Hf as (Hnd & Hall & [= -> ->]).
    cbn [mbind result_bind].
    destruct (String.eqb_spec (versions.BuilderImage v) "") as [Hbi|Hbi];
      cbn [negb].
    + destruct (expandTags registry options v) as [|i0 i1] eqn:Hexp;
        [done|].
      intros [= <-]. cbn. rewrite decide_True by done.
      repeat split; try done.
      intros _ Htags.
      apply (proj2 (expandTags_nil registry options v)) in Htags.
      congruence.
    + intros [= <-]. cbn. rewrite decide_False by done.
      by repeat split.
  - intros ((Hnd & Hall & Htags) & Hdir & Hb & Hargs & Hname & Hs & Hf & Hbi).
    rewrite (filterTests_total st ft v Hnd Hall). cbn [mbind result_bind].
    destruct b as [d t a s f bl bi ba nm]. cbn in *. subst.
    destruct (decide (versions.BuilderImage v = "")) as [Hemp|Hne].
    + destruct Hbi as [Hexp ->]. rewrite Hemp. cbn. by rewrite <- Hexp.
    + destruct Hbi as (-> & -> & ->).
      apply String.eqb_neq in Hne. by rewrite Hne.
Qed.

Lemma compileVersion_total (st ft : list string) (v : versions.Version) :
  compilable (st, ft) v →
  ∃ b, compileVersion registry options st ft v = Ok b.
Proof.
  intros (Hnd & Hall & Htags). unfold compileVersion.
  rewrite (filterTests_total st ft v Hnd Hall). cbn [mbind result_bind].
  destruct (String.eqb_spec (versions.BuilderImage v) "") as [Hbi|Hbi];
    cbn [negb]; [|by eexists].
  destruct (expandTags registry options v) eqn:Hexp; [|by eexists].
  apply expandTags_nil in Hexp. by apply Htags in Hbi.
Qed.

(** The plan, when there is one, in closed form. *)
Lemma newCloudBuildTemplateData_Ok (data : cloudBuildTemplateData) :
  newCloudBuildTemplateData fs registry spec options = Ok data
  ↔ ∃ st ft,
      extractTests fs options = Ok (st, ft)
      ∧ Forall2 (λ v b, compileVersion registry options st ft v = Ok b)
          (selected spec options) (ImageBuilds data)
      ∧ data
        = {| RequireNewTags := opts.RequireNewTags options;
             Parallel :=
               shouldParallelize options
                 (length (versions.Versions spec)) (length ft);
             ImageBuilds := ImageBuilds data;
             AllImages :=
               shippable registry options (selected spec options);
             TimeoutSeconds := opts.TimeoutSeconds options;
             MachineType := opts.MachineType options |}.
Proof.
  unfold newCloudBuildTemplateData.
  destruct (extractTests fs options) as [[st ft]|e]; cbn [mbind result_bind].
  2:{ split; [done|]. by intros (? & ? & ? & _). }
  destruct (versionLoop _ _ _ _ _ _ _) as [data'|e] eqn:Hloop;
    cbn [mbind result_bind].
  - apply versionLoop_Ok in Hloop as (steps & Hall & ->).
    rewrite filter_selectDirs in *. cbn. split.
    + intros [= <-]. exists st, ft. by cbn.
    + intros (st' & ft' & [= <- <-] & Hall' & ->). cbn.
      do 2 f_equal.
      clear -Hall Hall'. revert Hall'. generalize (ImageBuilds data).
      induction Hall as [|v b vs bs Hb _ IH]; intros l Hl.
      * by apply Forall2_nil_inv_l in Hl.
      * apply Forall2_cons_inv_l in Hl as (b' & l' & Hb' & Hl & ->).
        rewrite Hb in Hb'. injection Hb' as <-. f_equal. by apply IH.
  - split; [done|]. intros (st' & ft' & [= <- <-] & Hall & _).
    assert (Hok : versionLoop registry options (selectDirs spec options)
              st ft (versions.Versions spec)
              {| RequireNewTags := opts.RequireNewTags options;
                 Parallel := false; ImageBuilds := []; AllImages := [];
                 TimeoutSeconds := 0; MachineType := "" |}
            = Ok (extendData
                    {| RequireNewTags := opts.RequireNewTags options;
                       Parallel := false; ImageBuilds := [];
                       AllImages := [];
                       TimeoutSeconds := 0; MachineType := "" |}
                    (ImageBuilds data)
                    (shippable registry options
                       (List.filter
                          (λ v, index (selectDirs spec options)
                                  (versions.Dir v))
                          (versions.Versions spec))))).
    { apply versionLoop_Ok. eexists. split; [|done].
      by rewrite filter_selectDirs. }
    rewrite Hok in Hloop. discriminate.
Qed.

(** Every selected version has its step, in manifest order. *)
Lemma steps_of_plan (data : cloudBuildTemplateData) :
  newCloudBuildTemplateData fs registry spec options = Ok data →
  Forall2 (stepFor registry options (discoveredTests fs options))
    (selected spec options) (ImageBuilds data)
  ∧ Forall (compilable (discoveredTests fs options)) (selected spec options).
Proof.
  intros (st & ft & Hext & Hall & _)%newCloudBuildTemplateData_Ok.
  unfold discoveredTests. rewrite Hext.
  split.
  - eapply Forall2_impl; [exact Hall|].
    intros v b Hb. by apply compileVersion_Ok in Hb as [_ ?].
  - clear -Hall. induction Hall as [|v b vs bs Hb _ IH]; constructor; [|done].
    by apply compileVersion_Ok in Hb as [? _].
Qed.

(** Conversely, the plan exists as soon as the catalog can be read and
    every selected version is compilable. *)
Lemma newCloudBuildTemplateData_total :
  succeeds (extractTests fs options) = true →
  Forall (compilable (discoveredTests fs options)) (selected spec options) →
  ∃ data, newCloudBuildTemplateData fs registry spec options = Ok data.
Proof.
  unfold discoveredTests.
  destruct (extractTests fs options) as [[st ft]|e] eqn:Hext; [|done].
  intros _ Hall.
  assert (∃ steps,
            Forall2 (λ v b, compileVersion registry options st ft v = Ok b)
              (selected spec options) steps) as [steps Hsteps].
  { induction Hall as [|v vs Hv _ [steps IH]]; [by exists []|].
    destruct (compileVersion_total st ft v Hv) as [b Hb].
    exists (b :: steps). by constructor. }
  exists {| RequireNewTags := opts.RequireNewTags options;
            Parallel :=
              shouldParallelize options
                (length (versions.Versions spec)) (length ft);
            ImageBuilds := steps;
            AllImages := shippable registry options (selected spec options);
            TimeoutSeconds := opts.TimeoutSeconds options;
            MachineType := opts.MachineType options |}.
  apply newCloudBuildTemplateData_Ok.
  exists st, ft. split; [done|]. cbn. by split.
Qed.

(** A selected version that is not compilable stops the program. *)
Lemma newCloudBuildTemplateData_Err (v : versions.Version) :
  v ∈ selected spec options →
  ¬ compilable (discoveredTests fs options) v →
  succeeds (newCloudBuildTemplateData fs registry spec options) = false.
Proof.
  intros Hv Hbad.
  destruct (newCloudBuildTemplateData fs registry spec options)
    as [data|e] eqn:Hdata; [|done].
  apply steps_of_plan in Hdata as [_ Hall].
  rewrite Forall_forall in Hall. by apply Hall in Hv.
Qed.

End plan.

(** ** What the template writes *)

Section blocks.

Implicit Types block text : list string.





End blocks.

Section emission.

Variable data : cloudBuildTemplateData.
Hypothesis Hcomplete : RequireNewTags data = false.

Lemma executeTemplate_complete :
  executeTemplate data = ("steps:" :: templateBody data, None).
Proof. unfold executeTemplate. by rewrite Hcomplete. Qed.






(** The output ends with the timeout and machine-type lines. *)
Lemma executeTemplate_trailer :
  ∃ pre, (executeTemplate data).1
         = pre ++ timeoutLines data ++ machineTypeLines data.
Proof.
  rewrite executeTemplate_complete. cbn [fst]. unfold templateBody.
  cbv zeta. rewrite !app_assoc, <- (app_assoc _ (timeoutLines data)).
  rewrite app_comm_cons. by eexists.
Qed.

End emission.

(** ** How the program stops *)

Section stops.

Variables (fs : fileSystem) (registry : string).
Variables (spec : versions.Spec) (options : opts.cloudBuildOptions).

Lemma compileVersion_Err (st ft : list string) (v : versions.Version)
    (e : failure) :
  compileVersion registry options st ft v = Err e →
  (∃ x, x ∈ versions.ExcludeTests v
        ∧ e = LogFatal ("No such test to exclude: " +:+ x))
  ∨ (e = SliceBoundsOutOfRange
     ∧ versions.BuilderImage v = "" ∧ versions.Tags v = []).
Proof.
  unfold compileVersion.
  destruct (filterTests st ft v) as [[s f]|e'] eqn:Hf; cbn [mbind result_bind].
  - destruct (String.eqb_spec (versions.BuilderImage v) "") as [Hbi|Hbi];
      cbn [negb]; [|done].
    destruct (expandTags registry options v) eqn:Hexp; [|done].
    intros [= <-]. right. by apply expandTags_nil in Hexp.
  - intros [= <-]. left. by eapply filterTests_Err.
Qed.

Lemma versionLoop_Err_inv (dirs : gmap string bool) (st ft : list string)
    (vs : list versions.Version) (data : cloudBuildTemplateData)
    (e : failure) :
  versionLoop registry options dirs st ft vs data = Err e →
  ∃ v, v ∈ List.filter (λ v, index dirs (versions.Dir v)) vs
       ∧ compileVersion registry options st ft v = Err e.
Proof.
  revert data. induction vs as [|v vs IH]; intros data; [done|].
  rewrite versionLoop_cons. cbn [List.filter].
  destruct (index dirs (versions.Dir v)); [|apply IH].
  destruct (compileVersion registry options st ft v) as [b|e'] eqn:Hb;
    cbn [mbind result_bind].
  - intros (v' & Hin & Hv')%IH. exists v'. split; [by right|done].
  - intros [= <-]. exists v. split; [by left|done].
Qed.

Lemma newCloudBuildTemplateData_Err_inv (e : failure) :
  newCloudBuildTemplateData fs registry spec options = Err e →
  extractTests fs options = Err e
  ∨ ∃ v, v ∈ selected spec options
         ∧ compileVersion registry options (discoveredTests fs options).1
             (discoveredTests fs options).2 v = Err e.
Proof.
  unfold newCloudBuildTemplateData, discoveredTests.
  destruct (extractTests fs options) as [[st ft]|e'];
    cbn [mbind result_bind fst snd]; [|intros [= <-]; by left].
  destruct (versionLoop _ _ _ _ _ _ _) as [data'|e'] eqn:Hloop;
    cbn [mbind result_bind]; [done|].
  intros [= <-]. right.
  apply versionLoop_Err_inv in Hloop. by rewrite filter_selectDirs in Hloop.
Qed.

End stops.

(** ** The first failure *)

Section first_failure.

Variables (fs : fileSystem) (registry : string).
Variables (spec : versions.Spec) (options : opts.cloudBuildOptions).

(** When the first version the loop does not skip fails, the loop fails
    the same way. *)
Lemma versionLoop_first_Err (dirs : gmap string bool) (st ft : list string)
    (vs rest : list versions.Version) (v : versions.Version)
    (data : cloudBuildTemplateData) (e : failure) :
  List.filter (λ v, index dirs (versions.Dir v)) vs = v :: rest →
  compileVersion registry options st ft v = Err e →
  versionLoop registry options dirs st ft vs data = Err e.
Proof.
  intros Hfirst Hv. induction vs as [|u vs IH]; [done|].
  rewrite versionLoop_cons. cbn [List.filter] in Hfirst.
  destruct (index dirs (versions.Dir u)); [|by apply IH].
  injection Hfirst as -> _. by rewrite Hv.
Qed.

Lemma newCloudBuildTemplateData_first_Err (v : versions.Version)
    (rest : list versions.Version) (e : failure) :
  succeeds (extractTests fs options) = true →
  selected spec options = v :: rest →
  compileVersion registry options (discoveredTests fs options).1
    (discoveredTests fs options).2 v = Err e →
  newCloudBuildTemplateData fs registry spec options = Err e.
Proof.
  unfold newCloudBuildTemplateData, discoveredTests.
  destruct (extractTests fs options) as [[st ft]|e']; [|done].
  cbn [mbind result_bind fst snd]. intros _ Hfirst Hv.
  rewrite <- filter_selectDirs in Hfirst.
  by rewrite (versionLoop_first_Err _ _ _ _ _ _ _ _ Hfirst Hv).
Qed.

End first_failure.

(** ** The tests that are kept *)

Section kept_tests.

Lemma elem_of_kept (v : versions.Version) (tests : list string) (t : string) :
  t ∈ kept v tests
  ↔ t ∈ tests ∧ t ∉ catalogPath <$> versions.ExcludeTests v.
Proof.
  unfold kept, excludedBy.
  rewrite !list_elem_of_In, List.filter_In, negb_true_iff.
  by rewrite bool_decide_eq_false, list_elem_of_In.
Qed.

Lemma kept_sublist (v : versions.Version) (tests : list string) :
  kept v tests `sublist_of` tests.
Proof.
  unfold kept. induction tests as [|t tests IH]; cbn [List.filter]; [done|].
  destruct (negb (excludedBy v t)); by constructor.
Qed.

Lemma kept_no_exclusions (v : versions.Version) (tests : list string) :
  versions.ExcludeTests v = [] → kept v tests = tests.
Proof.
  intros Hnil. unfold kept, excludedBy. rewrite Hnil.
  induction tests as [|t tests IH]; cbn [List.filter]; [done|].
  rewrite bool_decide_eq_false_2 by apply not_elem_of_nil.
  cbn [negb]. by rewrite IH.
Qed.

Lemma kept_Permutation (v v' : versions.Version) (tests : list string) :
  versions.ExcludeTests v' ≡ₚ versions.ExcludeTests v →
  kept v' tests = kept v tests.
Proof.
  intros Hperm. unfold kept, excludedBy.
  apply List.filter_ext. intros t. f_equal.
  apply bool_decide_ext. by rewrite Hperm.
Qed.

End kept_tests.

(** ** The end of the output *)

(** What the last lines of the output are when the template is executed to
    its end, which it is when [RequireNewTags] is not set. *)
Lemma options_block_when_template_completes
    (fs : fileSystem) (registry : string) (spec : versions.Spec)
    (options : opts.cloudBuildOptions) (data : cloudBuildTemplateData) :
  newCloudBuildTemplateData fs registry spec options = Ok data →
  opts.RequireNewTags options = false →
  (∃ pre, (executeTemplate data).1
          = pre ++ timeoutLines data ++ machineTypeLines data)
  ∧ (Parallel data = true →
     machineTypeLines data = ["options:"; "  machineType: 'E2_HIGHCPU_8'"])
  ∧ (Parallel data = false → opts.MachineType options ≠ "" →
     machineTypeLines data
     = ["options:";
        "  machineType: '" +:+ opts.MachineType options +:+ "'"])
  ∧ (Parallel data = false → opts.MachineType options = "" →
     machineTypeLines data = [])
  ∧ (opts.TimeoutSeconds options = 0%Z → timeoutLines data = [])
  ∧ (opts.TimeoutSeconds options ≠ 0%Z →
     timeoutLines data
     = [""; "timeout: " +:+ pretty (opts.TimeoutSeconds options) +:+ "s"]).
Proof.
  intros (st & ft & _ & _ & Hplan)%newCloudBuildTemplateData_Ok Hcomplete.
  assert (Hrnt : RequireNewTags data = false) by by rewrite Hplan.
  assert (Hmt : MachineType data = opts.MachineType options)
    by by rewrite Hplan.
  assert (Htmo : TimeoutSeconds data = opts.TimeoutSeconds options)
    by by rewrite Hplan.
  split; [by apply executeTemplate_trailer|].
  unfold machineTypeLines, timeoutLines. rewrite Hmt, Htmo.
  repeat split.
  - by intros ->.
  - intros -> Hne%String.eqb_neq. by rewrite Hne.
  - intros -> ->. done.
  - by intros ->.
  - intros Hne%Z.eqb_neq. by rewrite Hne.
Qed.

(** With [RequireNewTags] set the output stops after two lines, whatever
    the plan is. *)
Lemma output_cut_when_new_tags_required
    (fs : fileSystem) (registry : string) (spec : versions.Spec)
    (options : opts.cloudBuildOptions) (data : cloudBuildTemplateData) :
  newCloudBuildTemplateData fs registry spec options = Ok data →
  opts.RequireNewTags options = true →
  executeTemplate data
  = (["steps:"; "# Check if tags exist."], Some (CantEvaluateField "Images"))
  ∧ renderCloudBuildConfig fs registry spec options
    = Ok ("steps:" +:+ newline +:+ "# Check if tags exist.").
Proof.
  intros Hdata Hrnt. unfold renderCloudBuildConfig. rewrite Hdata.
  apply newCloudBuildTemplateData_Ok in Hdata as (st & ft & _ & _ & ->).
  cbn [mbind result_bind]. unfold executeTemplate. cbn [RequireNewTags].
  by rewrite Hrnt.
Qed.

(** The plan of the manifest with the single version
    [{dir: a, repo: foo, tags: [1.0, latest]}] when tests are not run. *)
Example plan_of_single_version :
  newCloudBuildTemplateData examples.someTests "gcr.io/proj"
    (examples.manifest [examples.foo])
    {| opts.Directories := []; opts.RunTests := false;
       opts.RequireNewTags := false; opts.FirstTagOnly := false;
       opts.TimeoutSeconds := 0; opts.MachineType := "";
       opts.EnableParallel := false; opts.ForceParallel := false |}
  = Ok {| RequireNewTags := false; Parallel := false;
          ImageBuilds :=
            [{| Directory := "a"; Tag := "gcr.io/proj/foo:1.0";
                Aliases := ["gcr.io/proj/foo:latest"];
                StructureTests := []; FunctionalTests := [];
                Builder := false; BuilderImage := ""; BuilderArgs := [];
                ImageNameFromBuilder := "" |}];
          AllImages := ["gcr.io/proj/foo:1.0"; "gcr.io/proj/foo:latest"];
          TimeoutSeconds := 0; MachineType := "" |}.
Proof. vm_compute. reflexivity. Qed.

(** * The claims *)

(** ** Scheduling mode *)

(** C1: the plan is parallel exactly when force-parallel is set, or
    enable-parallel is set and the manifest has more than one image
    definition or more than one functional test was discovered.  In
    particular, with enable-parallel alone, one definition and no functional
    test give a sequential plan, two definitions a parallel one, and
    force-parallel gives a parallel plan whatever the counts. *)
Theorem parallel_iff_forced_or_enabled_and_several
    (fs : fileSystem) (registry : string) (spec : versions.Spec)
    (options : opts.cloudBuildOptions) (data : cloudBuildTemplateData) :
  newCloudBuildTemplateData fs registry spec options = Ok data →
  let images := length (versions.Versions spec) in
  let tests := length (discoveredTests fs options).2 in
  (Parallel data = true
   ↔ opts.ForceParallel options = true
     ∨ (opts.EnableParallel options = true ∧ (1 < images ∨ 1 < tests)))
  ∧ (opts.ForceParallel options = false → opts.EnableParallel options = true →
     images = 1 → tests = 0 → Parallel data = false)
  ∧ (opts.EnableParallel options = true → images = 2 → Parallel data = true)
  ∧ (opts.ForceParallel options = true → Parallel data = true).
Proof.
  intros (st & ft & Hext & _ & ->)%newCloudBuildTemplateData_Ok images tests.
  subst images tests. unfold discoveredTests. rewrite Hext.
  cbn [Parallel snd]. unfold shouldParallelize.
  destruct (opts.ForceParallel options), (opts.EnableParallel options);
    cbn [negb];
    repeat match goal with
           | |- context [(1 <? ?n)%nat] => destruct (Nat.ltb_spec 1 n)
           end;
    cbn [orb]; intuition (try discriminate; try lia).
Qed.

Lemma parallel_iff_forced_or_enabled_and_several_witness :
  ∃ data,
    newCloudBuildTemplateData examples.noTests "gcr.io/p"
      (examples.manifest [examples.foo; examples.bar])
      (examples.withParallel examples.defaults true false) = Ok data
    ∧ Parallel data = true.
Proof.
  eexists. split; [vm_compute; reflexivity|].
  refine (proj1 (proj2 (proj2
            (parallel_iff_forced_or_enabled_and_several examples.noTests
               "gcr.io/p" (examples.manifest [examples.foo; examples.bar])
               (examples.withParallel examples.defaults true false) _ _)))
            _ _).
  - vm_compute. reflexivity.
  - reflexivity.
  - reflexivity.
Defined.

(** ** Stale exclusions *)

(** C2, as the code has it: an exclusion whose catalog path was not
    discovered stops the compilation when the image definition that carries
    it passes the directory selection.  No plan is produced; the resolver
    itself stops with the fatal message, and so does the whole compilation
    when nothing else can stop it (the test directories are readable and
    every selected definition without a builder image has a tag). *)
Theorem stale_exclusion_of_selected_version_stops
    (fs : fileSystem) (registry : string) (spec : versions.Spec)
    (options : opts.cloudBuildOptions) (v : versions.Version) (x : string) :
  v ∈ versions.Versions spec →
  inSelection options v = true →
  x ∈ versions.ExcludeTests v →
  catalogPath x ∉ (discoveredTests fs options).1
                  ++ (discoveredTests fs options).2 →
  succeeds (newCloudBuildTemplateData fs registry spec options) = false
  ∧ (∃ y, filterTests (discoveredTests fs options).1
            (discoveredTests fs options).2 v
          = Err (LogFatal ("No such test to exclude: " +:+ y)))
  ∧ (succeeds (extractTests fs options) = true →
     Forall (λ v', versions.BuilderImage v' = "" → versions.Tags v' ≠ [])
       (selected spec options) →
     ∃ y, newCloudBuildTemplateData fs registry spec options
          = Err (LogFatal ("No such test to exclude: " +:+ y))).
Proof.
  intros Hv Hsel Hx Hstale.
  assert (Hin : v ∈ selected spec options).
  { apply list_elem_of_In, List.filter_In. by rewrite <- list_elem_of_In. }
  assert (Hstop : succeeds (newCloudBuildTemplateData fs registry spec options)
                  = false).
  { apply (newCloudBuildTemplateData_Err _ _ _ _ v Hin).
    intros (_ & Hall & _). by apply Hall in Hx. }
  split; [done|]. split; [by eapply filterTests_stale|].
  intros Hread Htags.
  destruct (newCloudBuildTemplateData fs registry spec options)
    as [data|e] eqn:Hdata; [done|].
  apply newCloudBuildTemplateData_Err_inv in Hdata as [Hext|(v' & Hv' & He)].
  - by rewrite Hext in Hread.
  - apply compileVersion_Err in He as [(y & _ & ->)|(_ & Hbi & Hnil)].
    + by exists y.
    + rewrite Forall_forall in Htags. by destruct (Htags v' Hv' Hbi).
Qed.

Lemma stale_exclusion_of_selected_version_stops_witness :
  newCloudBuildTemplateData examples.someTests "gcr.io/p"
    (examples.manifest [examples.foo; examples.excluding examples.bar ["C"]])
    examples.defaults
  = Err (LogFatal "No such test to exclude: C").
Proof.
  destruct (stale_exclusion_of_selected_version_stops
              examples.someTests "gcr.io/p"
              (examples.manifest
                 [examples.foo; examples.excluding examples.bar ["C"]])
              examples.defaults
              (examples.excluding examples.bar ["C"]) "C")
    as (_ & _ & Hfatal).
  - vm_compute. right. left.
  - reflexivity.
  - vm_compute. left.
  - compute_done.
  - destruct Hfatal as [y Hy].
    + reflexivity.
    + repeat constructor; intros _; discriminate.
    + vm_compute. reflexivity.
Defined.

(** C2 as stated fails: an image definition outside the directory selection
    is skipped before its exclusions are looked at, so its stale exclusion
    stops nothing. *)
Lemma stale_exclusion_of_skipped_version_ignored :
  ("C" ∈ versions.ExcludeTests (examples.excluding examples.bar ["C"]))
  ∧ (catalogPath "C"
     ∉ (discoveredTests examples.someTests
          (examples.withDirectories examples.defaults ["a"])).1
       ++ (discoveredTests examples.someTests
             (examples.withDirectories examples.defaults ["a"])).2)
  ∧ ∃ data,
      newCloudBuildTemplateData examples.someTests "gcr.io/p"
        (examples.manifest
           [examples.foo; examples.excluding examples.bar ["C"]])
        (examples.withDirectories examples.defaults ["a"]) = Ok data
      ∧ Directory <$> ImageBuilds data = ["a"].
Proof.
  split; [vm_compute; left|].
  split; [compute_done|].
  eexists. split; [vm_compute; reflexivity|done].
Qed.

(** ** Builder-only images *)

(** C3, as the code has it: whenever a plan is produced, its shippable list
    is made of the names of the selected definitions that are not flagged
    builder-only, so a builder-only definition contributes none; and a
    builder-only definition that passes the directory selection still has
    its build step, a plain docker build of its directory. *)
Theorem builder_only_built_not_shipped
    (fs : fileSystem) (registry : string) (spec : versions.Spec)
    (options : opts.cloudBuildOptions) (data : cloudBuildTemplateData) :
  newCloudBuildTemplateData fs registry spec options = Ok data →
  AllImages data
  = mjoin (expandTags registry options
             <$> List.filter (λ v, negb (versions.Builder v))
                   (selected spec options))
  ∧ length (ImageBuilds data) = length (selected spec options)
  ∧ ∀ i v, selected spec options !! i = Some v →
           versions.Builder v = true →
           ∃ b, ImageBuilds data !! i = Some b
                ∧ Directory b = versions.Dir v
                ∧ Builder b = true
                ∧ yaml.name (buildStep (Parallel data) b)
                  = "gcr.io/cloud-builders/docker"
                ∧ yaml.args (buildStep (Parallel data) b)
                  = ["build"; "--tag=" +:+ Tag b; versions.Dir v].
Proof.
  intros Hdata. pose proof Hdata as [Hsteps _]%steps_of_plan.
  apply newCloudBuildTemplateData_Ok in Hdata as (st & ft & _ & _ & Hplan).
  split; [by rewrite Hplan|].
  split; [symmetry; by eapply Forall2_length|].
  intros i v Hv Hbuilder.
  destruct (Forall2_lookup_l _ _ _ _ _ Hsteps Hv)
    as (b & Hb & Hdir & Hflag & _).
  exists b. rewrite Hflag, Hbuilder in *.
  unfold buildStep. rewrite Hflag. cbn. by rewrite Hdir.
Qed.

Lemma builder_only_built_not_shipped_witness :
  AllImages
    {| RequireNewTags := false; Parallel := false;
       ImageBuilds :=
         [{| Directory := "b"; Tag := "gcr.io/p/bar:2.0"; Aliases := [];
             StructureTests := []; FunctionalTests := [];
             Builder := true; BuilderImage := ""; BuilderArgs := [];
             ImageNameFromBuilder := "" |};
          {| Directory := "a"; Tag := "gcr.io/p/foo:1.0";
             Aliases := ["gcr.io/p/foo:latest"];
             StructureTests := []; FunctionalTests := [];
             Builder := false; BuilderImage := ""; BuilderArgs := [];
             ImageNameFromBuilder := "" |}];
       AllImages := ["gcr.io/p/foo:1.0"; "gcr.io/p/foo:latest"];
       TimeoutSeconds := 0; MachineType := "" |}
  = mjoin (expandTags "gcr.io/p" examples.defaults
             <$> List.filter (λ v, negb (versions.Builder v))
                   (selected
                      (examples.manifest
                         [examples.builderOnly examples.bar; examples.foo])
                      examples.defaults)).
Proof.
  refine (proj1 (builder_only_built_not_shipped examples.noTests "gcr.io/p"
                   (examples.manifest
                      [examples.builderOnly examples.bar; examples.foo])
                   examples.defaults _ _)).
  vm_compute. reflexivity.
Defined.

(** C3 as stated fails: a builder-only definition outside the directory
    selection is skipped like any other, and no build step is produced for
    it. *)
Lemma builder_only_outside_selection_not_built :
  ∃ data,
    newCloudBuildTemplateData examples.noTests "gcr.io/p"
      (examples.manifest [examples.foo; examples.builderOnly examples.bar])
      (examples.withDirectories examples.defaults ["a"]) = Ok data
    ∧ Directory <$> ImageBuilds data = ["a"]
    ∧ versions.Dir (examples.builderOnly examples.bar) = "b".
Proof. eexists. split; [vm_compute; reflexivity|]. by split. Qed.

(** ** Directory selection *)

(** C4: with a non-empty directory filter the plan has exactly one build
    step per image definition whose directory is in the filter, in manifest
    order, and none for a directory outside it; with an empty filter every
    image definition of the manifest has its step. *)
Theorem directory_filter_selects_steps
    (fs : fileSystem) (registry : string) (spec : versions.Spec)
    (options : opts.cloudBuildOptions) (data : cloudBuildTemplateData) :
  newCloudBuildTemplateData fs registry spec options = Ok data →
  let D := opts.Directories options in
  let step := stepFor registry options (discoveredTests fs options) in
  (D ≠ [] →
   Forall2 step
     (List.filter (λ v, bool_decide (versions.Dir v ∈ D))
        (versions.Versions spec))
     (ImageBuilds data)
   ∧ ∀ b, b ∈ ImageBuilds data → Directory b ∈ D)
  ∧ (D = [] → Forall2 step (versions.Versions spec) (ImageBuilds data)).
Proof.
  intros [Hsteps _]%steps_of_plan D step. subst D step.
  revert Hsteps. unfold selected, inSelection.
  destruct (opts.Directories options) as [|d ds]; intros Hsteps.
  - split; [done|]. intros _.
    assert (List.filter (λ _ : versions.Version, true)
              (versions.Versions spec) = versions.Versions spec) as Hall;
      [|by rewrite Hall in Hsteps].
    generalize (versions.Versions spec).
    induction l as [|v l IH]; cbn [List.filter]; [done|by rewrite IH].
  - split; [|done]. intros _. split; [done|].
    intros b (i & Hi)%list_elem_of_lookup.
    destruct (Forall2_lookup_r _ _ _ _ _ Hsteps Hi) as (v & Hv & Hdir & _).
    rewrite Hdir.
    apply list_elem_of_lookup_2, list_elem_of_In, List.filter_In in Hv.
    destruct Hv as [_ Hv]. by apply bool_decide_eq_true in Hv.
Qed.

Lemma directory_filter_selects_steps_witness :
  Forall2 (stepFor "gcr.io/p" (examples.withDirectories examples.defaults ["b"])
             (discoveredTests examples.noTests
                (examples.withDirectories examples.defaults ["b"])))
    [examples.bar]
    [{| Directory := "b"; Tag := "gcr.io/p/bar:2.0"; Aliases := [];
        StructureTests := []; FunctionalTests := [];
        Builder := false; BuilderImage := ""; BuilderArgs := [];
        ImageNameFromBuilder := "" |}].
Proof.
  assert (Hdata : newCloudBuildTemplateData examples.noTests "gcr.io/p"
                    (examples.manifest [examples.foo; examples.bar])
                    (examples.withDirectories examples.defaults ["b"])
                  = Ok {| RequireNewTags := false; Parallel := false;
                          ImageBuilds :=
                            [{| Directory := "b"; Tag := "gcr.io/p/bar:2.0";
                                Aliases := []; StructureTests := [];
                                FunctionalTests := []; Builder := false;
                                BuilderImage := ""; BuilderArgs := [];
                                ImageNameFromBuilder := "" |}];
                          AllImages := ["gcr.io/p/bar:2.0"];
                          TimeoutSeconds := 0; MachineType := "" |})
    by (vm_compute; reflexivity).
  destruct (directory_filter_selects_steps _ _ _ _ _ Hdata) as [Hsome _].
  destruct Hsome as [Hsteps _]; [discriminate|].
  exact Hsteps.
Defined.

(** ** Builder images *)




(** ** First tag only *)

(** C6, as the code has it: with first-tag-only set, a selected image
    definition that has at least one tag expands to exactly one full name,
    that of its first tag, and every selected definition keeps its build
    step.  Without a builder image the step targets that name and has no
    alias; with a builder image the step targets the builder-derived name
    and the first tag's name is its only alias.  The shippable list holds
    the first name of every selected definition that is not builder-only. *)
Theorem first_tag_only_keeps_one_name
    (fs : fileSystem) (registry : string) (spec : versions.Spec)
    (options : opts.cloudBuildOptions) (data : cloudBuildTemplateData) :
  opts.FirstTagOnly options = true →
  newCloudBuildTemplateData fs registry spec options = Ok data →
  Forall2
    (λ v b,
       Directory b = versions.Dir v
       ∧ ∀ t ts,
           versions.Tags v = t :: ts →
           expandTags registry options v
           = [fullName registry (versions.Repo v) t]
           ∧ (versions.BuilderImage v = "" →
              Tag b = fullName registry (versions.Repo v) t
              ∧ Aliases b = [])
           ∧ (versions.BuilderImage v ≠ "" →
              Tag b = versions.ImageNameFromBuilder v
              ∧ Aliases b = [fullName registry (versions.Repo v) t]))
    (selected spec options) (ImageBuilds data)
  ∧ AllImages data
    = mjoin ((λ v, fullName registry (versions.Repo v)
                     <$> take 1 (versions.Tags v))
               <$> List.filter (λ v, negb (versions.Builder v))
                     (selected spec options)).
Proof.
  intros Hfirst Hdata. pose proof Hdata as [Hsteps _]%steps_of_plan. split.
  - eapply Forall2_impl; [exact Hsteps|].
    intros v b (Hdir & _ & _ & _ & _ & _ & Hshape). split; [done|].
    intros t ts Htags.
    assert (Hexp : expandTags registry options v
                   = [fullName registry (versions.Repo v) t]).
    { by rewrite expandTags_spec, Hfirst, Htags. }
    split; [done|].
    destruct (decide (versions.BuilderImage v = "")) as [Hbi|Hbi].
    + destruct Hshape as [Hshape _]. rewrite Hexp in Hshape.
      injection Hshape as -> ->. by split.
    + destruct Hshape as (-> & -> & _). by split.
  - apply newCloudBuildTemplateData_Ok in Hdata as (st & ft & _ & _ & ->).
    cbn [AllImages]. unfold shippable. f_equal.
    apply list_fmap_ext. intros _ v _.
    by rewrite expandTags_spec, Hfirst.
Qed.

Lemma first_tag_only_keeps_one_name_witness :
  ∃ data,
    newCloudBuildTemplateData examples.noTests "gcr.io/p"
      (examples.manifest [examples.foo; examples.bar])
      (examples.withFirstTagOnly examples.defaults) = Ok data
    ∧ AllImages data = ["gcr.io/p/foo:1.0"; "gcr.io/p/bar:2.0"].
Proof.
  eexists. split; [vm_compute; reflexivity|].
  refine (proj2 (first_tag_only_keeps_one_name examples.noTests "gcr.io/p"
                   (examples.manifest [examples.foo; examples.bar])
                   (examples.withFirstTagOnly examples.defaults) _ _ _)).
  - reflexivity.
  - vm_compute. reflexivity.
Defined.

(** C6 as stated fails: with first-tag-only set, the step of a definition
    that declares a builder image targets the builder-derived name, not the
    first tag, and a definition without tags (possible when a builder image
    names the result) contributes no name at all. *)
Lemma first_tag_only_builder_image_targets_builder_name :
  ∃ data,
    newCloudBuildTemplateData examples.noTests "gcr.io/p"
      (examples.manifest
         [examples.builtWith examples.foo "base:1.0" ["make"]
            "gcr.io/p/foo-built";
          examples.builtWith (examples.plain "c" "baz" []) "base:1.0"
            ["make"] "gcr.io/p/baz-built"])
      (examples.withFirstTagOnly examples.defaults) = Ok data
    ∧ Tag <$> ImageBuilds data = ["gcr.io/p/foo-built"; "gcr.io/p/baz-built"]
    ∧ Aliases <$> ImageBuilds data = [["gcr.io/p/foo:1.0"]; []]
    ∧ AllImages data = ["gcr.io/p/foo:1.0"].
Proof. eexists. split; [vm_compute; reflexivity|]. by repeat split. Qed.

(** ** The resolved tests *)

(** C7, as the code has it: when every excluded name resolves to a catalog
    path and no name is listed twice, the resolver returns exactly the
    catalog tests the exclusion list does not name, in catalog order; the
    order of the exclusion list does not matter, an empty exclusion list
    gives the catalog back unchanged, and an empty catalog gives empty
    lists. *)
Theorem filterTests_keeps_unexcluded_in_catalog_order
    (structureTests functionalTests : list string) (v : versions.Version) :
  NoDup (versions.ExcludeTests v) →
  (∀ e, e ∈ versions.ExcludeTests v
        → catalogPath e ∈ structureTests ++ functionalTests) →
  filterTests structureTests functionalTests v
  = Ok (kept v structureTests, kept v functionalTests)
  ∧ kept v structureTests `sublist_of` structureTests
  ∧ kept v functionalTests `sublist_of` functionalTests
  ∧ (∀ t, t ∈ kept v structureTests ++ kept v functionalTests
          ↔ t ∈ structureTests ++ functionalTests
            ∧ t ∉ catalogPath <$> versions.ExcludeTests v)
  ∧ (∀ v', versions.ExcludeTests v' ≡ₚ versions.ExcludeTests v →
           filterTests structureTests functionalTests v'
           = filterTests structureTests functionalTests v)
  ∧ (versions.ExcludeTests v = [] →
     filterTests structureTests functionalTests v
     = Ok (structureTests, functionalTests))
  ∧ (structureTests = [] → functionalTests = [] →
     filterTests structureTests functionalTests v = Ok ([], [])).
Proof.
  intros Hnd Hall.
  pose proof (filterTests_total _ _ _ Hnd Hall) as Hok.
  split; [done|]. do 2 (split; [apply kept_sublist|]).
  split; [|split; [|split]].
  - intros t. rewrite !elem_of_app, !elem_of_kept. tauto.
  - intros v' Hperm. rewrite Hok.
    rewrite (filterTests_total _ _ v').
    + by rewrite !(kept_Permutation v v').
    + by rewrite Hperm.
    + intros e He. apply Hall. by rewrite <- Hperm.
  - intros Hnil. by rewrite Hok, !kept_no_exclusions.
  - intros -> ->. by rewrite Hok.
Qed.

Lemma filterTests_keeps_unexcluded_in_catalog_order_witness :
  filterTests ["/workspace/tests/a_test.yaml"; "/workspace/tests/b_test.yaml"]
    ["/workspace/tests/functional_tests/c_test.yaml"]
    (examples.excluding examples.foo
       ["tests/functional_tests/c_test.yaml"; "tests/a_test.yaml"])
  = Ok (["/workspace/tests/b_test.yaml"], []).
Proof.
  refine (proj1 (filterTests_keeps_unexcluded_in_catalog_order
                   ["/workspace/tests/a_test.yaml";
                    "/workspace/tests/b_test.yaml"]
                   ["/workspace/tests/functional_tests/c_test.yaml"]
                   (examples.excluding examples.foo
                      ["tests/functional_tests/c_test.yaml";
                       "tests/a_test.yaml"]) _ _)).
  - compute_done.
  - apply Forall_forall. compute_done.
Defined.

(** C7 as stated fails: the resolver does not return for every image
    definition.  It stops on an exclusion that names no catalog test, and
    also on a name it has already excluded, since an excluded test reads
    as absent from the [included] map. *)
Lemma filterTests_stops_on_unknown_or_repeated_exclusion :
  filterTests ["/workspace/tests/a_test.yaml"; "/workspace/tests/b_test.yaml"]
    [] (examples.excluding examples.foo ["tests/c_test.yaml"])
  = Err (LogFatal "No such test to exclude: tests/c_test.yaml")
  ∧ filterTests
      ["/workspace/tests/a_test.yaml"; "/workspace/tests/b_test.yaml"]
      [] (examples.excluding examples.foo
            ["tests/a_test.yaml"; "tests/a_test.yaml"])
    = Err (LogFatal "No such test to exclude: tests/a_test.yaml").
Proof. split; vm_compute; reflexivity. Qed.

(** ** Alias steps *)




(** ** Timeout and machine type *)

(** C9 fails on the code when [RequireNewTags] is set: the template stops
    at its tag-existence section, which ranges over a field the data does
    not have, and the output ends there, so that a parallel plan is written
    without any machine type (and without steps, images or timeout). *)
Theorem require_new_tags_cuts_output_before_options :
  ∃ data,
    newCloudBuildTemplateData examples.noTests "gcr.io/p"
      (examples.manifest [examples.foo])
      (examples.withRequireNewTags
         (examples.withParallel examples.defaults false true)) = Ok data
    ∧ Parallel data = true
    ∧ executeTemplate data
      = (["steps:"; "# Check if tags exist."],
         Some (CantEvaluateField "Images"))
    ∧ renderCloudBuildConfig examples.noTests "gcr.io/p"
        (examples.manifest [examples.foo])
        (examples.withRequireNewTags
           (examples.withParallel examples.defaults false true))
      = Ok ("steps:" +:+ newline +:+ "# Check if tags exist.").
Proof.
  eexists. split; [vm_compute; reflexivity|].
  repeat split; vm_compute; reflexivity.
Qed.

(** ** Reading the first image name *)

(** C10: for a selected image definition without a builder image the step's
    primary tag is the first element of the generated image-name list, which
    is the full name of the first declared tag.  The read needs a tag: a
    plan is produced exactly when the tests can be read and every selected
    definition has valid exclusions and, unless it declares a builder image,
    at least one tag.  A selected definition without builder image and
    without tags stops the compilation; when it is the first selected
    definition and its exclusions are in order, the program stops with the
    run-time bounds panic of the statement that takes [images[0]] and
    [images[1:]] (reported as "slice bounds out of range [1:0]"). *)
Theorem primary_tag_is_first_image_name
    (fs : fileSystem) (registry : string) (spec : versions.Spec)
    (options : opts.cloudBuildOptions) :
  (∀ data,
     newCloudBuildTemplateData fs registry spec options = Ok data →
     Forall2
       (λ v b,
          versions.BuilderImage v = "" →
          ∃ t ts,
            versions.Tags v = t :: ts
            ∧ Tag b :: Aliases b = expandTags registry options v
            ∧ Tag b = fullName registry (versions.Repo v) t)
       (selected spec options) (ImageBuilds data))
  ∧ ((∃ data, newCloudBuildTemplateData fs registry spec options = Ok data)
     ↔ succeeds (extractTests fs options) = true
       ∧ Forall
           (λ v,
              NoDup (versions.ExcludeTests v)
              ∧ (∀ e, e ∈ versions.ExcludeTests v →
                      catalogPath e ∈ (discoveredTests fs options).1
                                      ++ (discoveredTests fs options).2)
              ∧ (versions.BuilderImage v = "" → versions.Tags v ≠ []))
           (selected spec options))
  ∧ (∀ v, v ∈ selected spec options →
          versions.BuilderImage v = "" → versions.Tags v = [] →
          succeeds (newCloudBuildTemplateData fs registry spec options)
          = false)
  ∧ (∀ v rest,
       selected spec options = v :: rest →
       versions.BuilderImage v = "" → versions.Tags v = [] →
       succeeds (extractTests fs options) = true →
       NoDup (versions.ExcludeTests v) →
       (∀ e, e ∈ versions.ExcludeTests v →
             catalogPath e ∈ (discoveredTests fs options).1
                             ++ (discoveredTests fs options).2) →
       newCloudBuildTemplateData fs registry spec options
       = Err SliceBoundsOutOfRange).
Proof.
  split; [|split; [|split]].
  - intros data [Hsteps Hok]%steps_of_plan.
    revert Hok. induction Hsteps as [|v b vs bs Hb _ IH].
    + constructor.
    + intros [Hv Hvs]%Forall_cons. constructor; [|by apply IH].
      intros Hbi. destruct Hv as (_ & _ & Htags). specialize (Htags Hbi).
      destruct Hb as (_ & _ & _ & _ & _ & _ & Hshape).
      rewrite decide_True in Hshape by done. destruct Hshape as [Hexp _].
      destruct (versions.Tags v) as [|t ts] eqn:Ht; [done|].
      exists t, ts. split; [done|]. split; [done|].
      rewrite expandTags_spec, Ht in Hexp.
      destruct (opts.FirstTagOnly options); by injection Hexp.
  - split.
    + intros [data Hdata]. split.
      * apply newCloudBuildTemplateData_Ok in Hdata
          as (st & ft & Hext & _). by rewrite Hext.
      * by apply steps_of_plan in Hdata as [_ Hall].
    + intros [Hread Hall].
      by apply newCloudBuildTemplateData_total.
  - intros v Hv Hbi Hnil.
    apply (newCloudBuildTemplateData_Err _ _ _ _ v Hv).
    intros (_ & _ & Htags). by apply Htags.
  - intros v rest Hfirst Hbi Hnil Hread Hnd Hall.
    apply (newCloudBuildTemplateData_first_Err _ _ _ _ v rest); try done.
    unfold compileVersion. rewrite (filterTests_total _ _ v Hnd Hall).
    cbn [mbind result_bind]. rewrite Hbi. cbn [String.eqb negb].
    by rewrite (proj2 (expandTags_nil registry options v) Hnil).
Qed.

Lemma primary_tag_is_first_image_name_witness :
  (∃ data b,
     newCloudBuildTemplateData examples.noTests "gcr.io/p"
       (examples.manifest [examples.foo]) examples.defaults = Ok data
     ∧ ImageBuilds data !! 0%nat = Some b
     ∧ Tag b = "gcr.io/p/foo:1.0"
     ∧ Aliases b = ["gcr.io/p/foo:latest"])
  ∧ newCloudBuildTemplateData examples.noTests "gcr.io/p"
      (examples.manifest [examples.plain "a" "foo" []]) examples.defaults
    = Err SliceBoundsOutOfRange.
Proof.
  split.
  - destruct (primary_tag_is_first_image_name examples.noTests "gcr.io/p"
                (examples.manifest [examples.foo]) examples.defaults)
      as (Hfirst & [_ Hplan] & _).
    destruct Hplan as [data Hdata].
    { split; [reflexivity|].
      constructor; [|constructor]. split; [constructor|].
      split; [|discriminate]. intros e He. by apply elem_of_nil in He. }
    specialize (Hfirst data Hdata).
    apply Forall2_cons_inv_l in Hfirst as (b & bs & Hb & _ & Hbuilds).
    destruct (Hb eq_refl) as (t & ts & Htags & Hexp & Htag).
    injection Htags as <- <-.
    exists data, b. split; [exact Hdata|]. split; [by rewrite Hbuilds|].
    split; [exact Htag|]. by injection Hexp.
  - refine (proj2 (proj2 (proj2
              (primary_tag_is_first_image_name examples.noTests "gcr.io/p"
                 (examples.manifest [examples.plain "a" "foo" []])
                 examples.defaults)))
              (examples.plain "a" "foo" []) [] _ _ _ _ _ _);
      try reflexivity.
    + constructor.
    + intros e He. by apply elem_of_nil in He.
Defined.


(** * Further properties *)

(** ** Strings *)

Section strings.

Lemma string_app_cons (c : ascii) (s1 s2 : string) :
  String c s1 +:+ s2 = String c (s1 +:+ s2).
Proof. reflexivity. Qed.

Lemma string_app_nil_l (s : string) : "" +:+ s = s.
Proof. reflexivity. Qed.

Lemma string_app_nil_r (s : string) : s +:+ "" = s.
Proof.
  induction s as [|c s IH]; [done|]. by rewrite string_app_cons, IH.
Qed.

Lemma string_app_assoc (s1 s2 s3 : string) :
  (s1 +:+ s2) +:+ s3 = s1 +:+ (s2 +:+ s3).
Proof.
  induction s1 as [|c s1 IH]; [done|]. by rewrite !string_app_cons, IH.
Qed.

Lemma string_length_app (s1 s2 : string) :
  String.length (s1 +:+ s2) = (String.length s1 + String.length s2)%nat.
Proof.
  induction s1 as [|c s1 IH]; [done|].
  rewrite string_app_cons. cbn [String.length]. by rewrite IH.
Qed.

Lemma substring_all (s : string) :
  String.substring 0 (String.length s) s = s.
Proof.
  induction s as [|c s IH]; [done|].
  cbn [String.length String.substring]. by rewrite IH.
Qed.

Lemma substring_app_r (p s : string) :
  String.substring (String.length p) (String.length s) (p +:+ s) = s.
Proof.
  induction p as [|c p IH]; [apply substring_all|].
  rewrite string_app_cons. by cbn [String.length String.substring].
Qed.

(** A string is what comes before a position followed by what comes
    after it. *)
Lemma substring_split (n : nat) (s : string) :
  (n ≤ String.length s)%nat →
  String.substring 0 n s
  +:+ String.substring n (String.length s - n) s = s.
Proof.
  revert n. induction s as [|c s IH]; intros [|n] Hn;
    cbn [String.length String.substring Nat.sub] in *; try done; try lia.
  - rewrite string_app_nil_l. by rewrite substring_all.
  - rewrite string_app_cons. by rewrite IH by lia.
Qed.

(** [strings.HasSuffix] holds exactly of the strings that end with the
    suffix. *)
Lemma HasSuffix_iff (s suffix : string) :
  HasSuffix s suffix = true ↔ ∃ stem, s = stem +:+ suffix.
Proof.
  unfold HasSuffix. rewrite andb_true_iff, Nat.leb_le, String.eqb_eq. split.
  - intros [Hlen Hsub].
    exists (String.substring 0 (String.length s - String.length suffix) s).
    pose proof (substring_split (String.length s - String.length suffix) s
                  ltac:(lia)) as Hsplit.
    replace (String.length s - (String.length s - String.length suffix))%nat
      with (String.length suffix) in Hsplit by lia.
    by rewrite Hsub in Hsplit.
  - intros [stem ->]. rewrite string_length_app. split; [lia|].
    replace (String.length stem + String.length suffix
             - String.length suffix)%nat
      with (String.length stem) by lia.
    apply substring_app_r.
Qed.

End strings.

(** ** Discovering tests *)

Section discovery.

Lemma readLoop_spec (dir : string) (files : list fileInfo)
    (tests : list string) :
  readLoop dir files tests
  = tests ++ (testPath dir <$> List.filter isTestFile files).
Proof.
  revert tests. induction files as [|f files IH]; intros tests; simpl.
  - by rewrite app_nil_r.
  - unfold isTestFile at 1. destruct (IsDir f); cbn [negb andb]; [apply IH|].
    destruct (HasSuffix (Name f) testJsonSuffix
              || HasSuffix (Name f) testYamlSuffix); [|apply IH].
    rewrite IH, fmap_cons, <- app_assoc. done.
Qed.

Lemma readTests_found (fs : fileSystem) (dir : string) :
  readTests fs dir
  = if unreadable fs dir then Err (CheckPanic dir) else Ok (found fs dir).
Proof.
  unfold readTests, unreadable, found.
  destruct (fs dir); [done..|]. by rewrite readLoop_spec.
Qed.

End discovery.

(** X1: of a readable directory [readTests] returns, in the order of the
    listing, the paths [/workspace/<dir>/<name>] of the entries that are
    not directories and whose name ends in [_test.json] or [_test.yaml],
    and nothing else. *)
Theorem readTests_lists_the_test_files
    (fs : fileSystem) (dir : string) (files : list fileInfo) :
  fs dir = Listing files →
  readTests fs dir = Ok (testPath dir <$> List.filter isTestFile files)
  ∧ (∀ f, isTestFile f = true
          ↔ IsDir f = false
            ∧ ∃ stem, Name f = stem +:+ "_test.json"
                      ∨ Name f = stem +:+ "_test.yaml")
  ∧ (∀ f, testPath dir f = "/workspace/" +:+ dir +:+ "/" +:+ Name f).
Proof.
  intros Hdir. split; [|split].
  - unfold readTests. rewrite Hdir. by rewrite readLoop_spec.
  - intros f. unfold isTestFile.
    rewrite andb_true_iff, negb_true_iff, orb_true_iff, !HasSuffix_iff.
    split.
    + intros [Hd [[stem H]|[stem H]]]; (split; [done|]); exists stem; tauto.
    + intros [Hd [stem [H|H]]]; (split; [done|]); [left|right]; by exists stem.
  - done.
Qed.

Lemma readTests_lists_the_test_files_witness :
  readTests examples.someTests "tests/functional_tests"
  = Ok ["/workspace/tests/functional_tests/b_test.json";
        "/workspace/tests/functional_tests/c_test.yaml"].
Proof.
  exact (proj1 (readTests_lists_the_test_files examples.someTests
                  "tests/functional_tests"
                  [examples.file "b_test.json"; examples.file "c_test.yaml"]
                  eq_refl)).
Defined.

(** The tests to run, directory by directory. *)
Lemma extractTests_found
    (fs : fileSystem) (options : opts.cloudBuildOptions) :
  extractTests fs options
  = if negb (opts.RunTests options) then Ok ([], [])
    else if unreadable fs "tests" then Err (CheckPanic "tests")
    else if unreadable fs "tests/structure_tests"
    then Err (CheckPanic "tests/structure_tests")
    else if unreadable fs "tests/functional_tests"
    then Err (CheckPanic "tests/functional_tests")
    else Ok (found fs "tests" ++ found fs "tests/structure_tests",
             found fs "tests/functional_tests").
Proof.
  unfold extractTests. destruct (opts.RunTests options); cbn [negb]; [|done].
  rewrite !readTests_found.
  change testsDir with "tests".
  change structureTestsDir with "tests/structure_tests".
  change functionalTestsDir with "tests/functional_tests".
  by destruct (unreadable fs "tests"),
       (unreadable fs "tests/structure_tests"),
       (unreadable fs "tests/functional_tests").
Qed.

(** X2: the tests to run, in closed form.  Nothing is read unless
    [RunTests] is set.  When it is, a missing directory counts as empty,
    the structure tests are those of [tests] followed by those of
    [tests/structure_tests], and the program panics on the first
    directory, in the order [tests], [tests/structure_tests],
    [tests/functional_tests], that exists and cannot be read. *)
Theorem extractTests_closed_form
    (fs : fileSystem) (options : opts.cloudBuildOptions) :
  extractTests fs options
  = if negb (opts.RunTests options) then Ok ([], [])
    else if unreadable fs "tests" then Err (CheckPanic "tests")
    else if unreadable fs "tests/structure_tests"
    then Err (CheckPanic "tests/structure_tests")
    else if unreadable fs "tests/functional_tests"
    then Err (CheckPanic "tests/functional_tests")
    else Ok (found fs "tests" ++ found fs "tests/structure_tests",
             found fs "tests/functional_tests").
Proof. apply extractTests_found. Qed.

(** ** Which exclusion stops the resolver *)

Section offender.

Lemma excludeLoop_app (pre rest : list string) (m : gmap string bool) :
  excludeLoop (pre ++ rest) m = excludeLoop pre m ≫= excludeLoop rest.
Proof.
  revert m. induction pre as [|e pre IH]; intros m; [done|].
  cbn [app excludeLoop].
  destruct (negb (index m (workspacePrefix +:+ e))); [done|apply IH].
Qed.

(** The loop fails like the first version, among those it does not skip,
    that fails. *)
Lemma versionLoop_first_failure (registry : string)
    (options : opts.cloudBuildOptions) (dirs : gmap string bool)
    (st ft : list string) (vs before after : list versions.Version)
    (v : versions.Version) (data : cloudBuildTemplateData) (e : failure) :
  List.filter (λ v, index dirs (versions.Dir v)) vs = before ++ v :: after →
  Forall (λ u, succeeds (compileVersion registry options st ft u) = true)
    before →
  compileVersion registry options st ft v = Err e →
  versionLoop registry options dirs st ft vs data = Err e.
Proof.
  intros Hsel Hbefore Hv. revert vs data Hsel.
  induction Hbefore as [|u before Hu _ IH]; intros vs data Hsel.
  - by eapply versionLoop_first_Err.
  - induction vs as [|w vs IHvs]; [done|].
    rewrite versionLoop_cons. cbn [List.filter app] in Hsel.
    destruct (index dirs (versions.Dir w)); [|by apply IHvs].
    injection Hsel as -> Hsel.
    destruct (compileVersion registry options st ft u); [|done].
    cbn [mbind result_bind]. by apply IH.
Qed.

End offender.

(** The resolver stops on the first exclusion it cannot honour. *)
Lemma filterTests_first_offender
    (structureTests functionalTests : list string) (v : versions.Version)
    (pre post : list string) (x : string) :
  versions.ExcludeTests v = pre ++ x :: post →
  NoDup pre →
  (∀ e, e ∈ pre → catalogPath e ∈ structureTests ++ functionalTests) →
  catalogPath x ∉ structureTests ++ functionalTests ∨ x ∈ pre →
  filterTests structureTests functionalTests v
  = Err (LogFatal ("No such test to exclude: " +:+ x)).
Proof.
  intros Hexcl Hnd Hall Hbad. unfold filterTests.
  rewrite Hexcl, excludeLoop_app.
  destruct (excludeLoop_total pre
              (markAll (structureTests ++ functionalTests) ∅) Hnd)
    as [m Hm].
  { intros e He. by apply index_markAll, Hall. }
  rewrite Hm. cbn [mbind result_bind excludeLoop].
  apply excludeLoop_Ok in Hm as (_ & _ & Hidx).
  assert (index m (workspacePrefix +:+ x) = false) as ->; [|done].
  change (workspacePrefix +:+ x) with (catalogPath x). rewrite Hidx.
  destruct Hbad as [Hstale|Hrep].
  - apply andb_false_intro1, not_true_is_false.
    by rewrite index_markAll.
  - apply andb_false_intro2, negb_false_iff, bool_decide_eq_true.
    by apply list_elem_of_fmap_2.
Qed.

(** X3: the resolver stops on the first name of the exclusion list that
    either names no catalog test or repeats an earlier name, and the fatal
    message carries that name. *)
Theorem filterTests_reports_first_offender
    (structureTests functionalTests : list string) (v : versions.Version)
    (pre post : list string) (x : string) :
  versions.ExcludeTests v = pre ++ x :: post →
  NoDup pre →
  (∀ e, e ∈ pre → catalogPath e ∈ structureTests ++ functionalTests) →
  catalogPath x ∉ structureTests ++ functionalTests ∨ x ∈ pre →
  filterTests structureTests functionalTests v
  = Err (LogFatal ("No such test to exclude: " +:+ x)).
Proof. apply filterTests_first_offender. Qed.

Lemma filterTests_reports_first_offender_witness :
  filterTests ["/workspace/tests/a_test.yaml"]
    ["/workspace/tests/functional_tests/b_test.json"]
    (examples.excluding examples.foo
       ["tests/a_test.yaml"; "tests/a_test.yaml"; "tests/zz_test.yaml"])
  = Err (LogFatal "No such test to exclude: tests/a_test.yaml").
Proof.
  refine (filterTests_reports_first_offender _ _
            (examples.excluding examples.foo
               ["tests/a_test.yaml"; "tests/a_test.yaml";
                "tests/zz_test.yaml"])
            ["tests/a_test.yaml"] ["tests/zz_test.yaml"] "tests/a_test.yaml"
            eq_refl _ _ _).
  - compute_done.
  - apply Forall_forall. compute_done.
  - right. compute_done.
Defined.

(** X4: with tests switched off the catalog is empty, so the first
    exclusion of any selected version stops the compilation: a manifest
    that excludes tests cannot be compiled without [RunTests].  The fatal
    error names the first exclusion of the first selected version that has
    one, provided the selected versions before it have a tag or a builder
    image. *)
Theorem exclusions_need_tests_enabled
    (fs : fileSystem) (registry : string) (spec : versions.Spec)
    (options : opts.cloudBuildOptions)
    (before after : list versions.Version) (v : versions.Version)
    (x : string) (xs : list string) :
  opts.RunTests options = false →
  selected spec options = before ++ v :: after →
  versions.ExcludeTests v = x :: xs →
  Forall (λ u, versions.ExcludeTests u = []
               ∧ (versions.BuilderImage u = "" → versions.Tags u ≠ []))
    before →
  newCloudBuildTemplateData fs registry spec options
  = Err (LogFatal ("No such test to exclude: " +:+ x)).
Proof.
  intros Hoff Hsel Hexcl Hbefore.
  unfold newCloudBuildTemplateData.
  rewrite extractTests_found, Hoff. cbn [negb mbind result_bind].
  rewrite <- filter_selectDirs in Hsel.
  rewrite (versionLoop_first_failure registry options _ [] [] _ before after
             v _ (LogFatal ("No such test to exclude: " +:+ x)) Hsel);
    [done| |].
  - eapply Forall_impl; [exact Hbefore|]. intros u [Hu Htags].
    destruct (compileVersion_total registry options [] [] u) as [b ->];
      [|done].
    unfold compilable. rewrite Hu. split; [constructor|].
    split; [|done]. intros e He. by apply elem_of_nil in He.
  - unfold compileVersion.
    rewrite (filterTests_first_offender [] [] v [] xs x Hexcl);
      [done|constructor| |].
    + intros e He. by apply elem_of_nil in He.
    + left. cbn [app]. apply not_elem_of_nil.
Qed.

Lemma exclusions_need_tests_enabled_witness :
  newCloudBuildTemplateData examples.someTests "gcr.io/p"
    (examples.manifest
       [examples.foo;
        examples.excluding examples.bar
          ["tests/functional_tests/b_test.json"]])
    {| opts.Directories := []; opts.RunTests := false;
       opts.RequireNewTags := false; opts.FirstTagOnly := false;
       opts.TimeoutSeconds := 0; opts.MachineType := "";
       opts.EnableParallel := false; opts.ForceParallel := false |}
  = Err (LogFatal
           "No such test to exclude: tests/functional_tests/b_test.json").
Proof.
  eapply exclusions_need_tests_enabled
    with (before := [examples.foo]) (after := []) (xs := []);
    [reflexivity..|].
  repeat constructor. intros _. discriminate.
Defined.

(** ** The image list and the steps *)

(** X5: the names under [images:] are exactly the names some step of the
    plan produces for an image that is not builder-only: the tag of a
    docker build step (an image without builder image), or the target of
    an alias step. *)
Theorem listed_images_are_produced_by_steps
    (fs : fileSystem) (registry : string) (spec : versions.Spec)
    (options : opts.cloudBuildOptions) (data : cloudBuildTemplateData)
    (image : string) :
  newCloudBuildTemplateData fs registry spec options = Ok data →
  image ∈ AllImages data
  ↔ ∃ b, b ∈ ImageBuilds data
         ∧ Builder b = false
         ∧ ((BuilderImage b = ""
             ∧ yaml.args (buildStep (Parallel data) b)
               = ["build"; "--tag=" +:+ image; Directory b])
            ∨ (∃ alias, alias ∈ Aliases b
                        ∧ yaml.args (aliasStep (Parallel data) b alias)
                          = ["tag"; Tag b; image])).
Proof.
  intros Hdata. pose proof Hdata as [Hsteps _]%steps_of_plan.
  apply newCloudBuildTemplateData_Ok in Hdata as (st & ft & _ & _ & Hplan).
  assert (Hall : AllImages data
                 = shippable registry options (selected spec options))
    by by rewrite Hplan.
  rewrite Hall. unfold shippable. rewrite list_elem_of_join. split.
  - intros (names & Himage & (v & -> & Hv)%list_elem_of_fmap).
    apply list_elem_of_In, List.filter_In in Hv as [Hv Hship].
    apply list_elem_of_In, list_elem_of_lookup in Hv as [i Hi].
    destruct (Forall2_lookup_l _ _ _ _ _ Hsteps Hi)
      as (b & Hb & Hdir & Hflag & _ & _ & _ & _ & Hshape).
    apply negb_true_iff in Hship. rewrite Hship in Hflag.
    exists b. split; [by eapply list_elem_of_lookup_2|]. split; [done|].
    destruct (decide (versions.BuilderImage v = "")) as [Hbi|Hbi].
    + destruct Hshape as [Hexp Hnone]. rewrite <- Hexp in Himage.
      apply elem_of_cons in Himage as [->|Halias].
      * left. split; [done|]. unfold buildStep. by rewrite Hflag, Hnone.
      * right. by exists image.
    + destruct Hshape as (_ & Hexp & _). rewrite <- Hexp in Himage.
      right. by exists image.
  - intros (b & (i & Hi)%list_elem_of_lookup & Hflag & Hprod).
    destruct (Forall2_lookup_r _ _ _ _ _ Hsteps Hi)
      as (v & Hv & Hdir & Hflag' & _ & _ & _ & _ & Hshape).
    exists (expandTags registry options v). split.
    + destruct (decide (versions.BuilderImage v = "")) as [Hbi|Hbi].
      * destruct Hshape as [<- Hnone].
        destruct Hprod as [[_ Hargs]|(alias & Halias & Hargs)].
        -- unfold buildStep in Hargs. rewrite Hflag, Hnone in Hargs.
           cbn in Hargs. injection Hargs as Heq.
           change (Tag b = image) in Heq. subst image. by left.
        -- cbn in Hargs. injection Hargs as <-. by right.
      * destruct Hshape as (_ & <- & Hfull).
        destruct Hprod as [[Hnone _]|(alias & Halias & Hargs)].
        -- rewrite Hnone in Hfull. by destruct registry.
        -- cbn in Hargs. by injection Hargs as <-.
    + apply list_elem_of_fmap_2, list_elem_of_In, List.filter_In.
      split; [by eapply list_elem_of_In, list_elem_of_lookup_2|].
      by rewrite <- Hflag', Hflag.
Qed.

Lemma listed_images_are_produced_by_steps_witness :
  ∃ data,
    newCloudBuildTemplateData examples.noTests "gcr.io/p"
      (examples.manifest [examples.foo]) examples.defaults = Ok data
    ∧ "gcr.io/p/foo:latest" ∈ AllImages data.
Proof.
  eexists. split; [vm_compute; reflexivity|].
  apply (listed_images_are_produced_by_steps examples.noTests "gcr.io/p"
           (examples.manifest [examples.foo]) examples.defaults _
           "gcr.io/p/foo:latest" ltac:(vm_compute; reflexivity)).
  eexists. split; [left|]. split; [reflexivity|].
  right. exists "gcr.io/p/foo:latest". split; [left|reflexivity].
Defined.

(** ** The wait graph *)

Section wait_graph.

Variable data : cloudBuildTemplateData.



End wait_graph.

Section sequential_output.





End sequential_output.


(** X7: under parallel scheduling every functional-test step of an image
    waits for exactly the identifier that the image's build step declares,
    and the functional-test steps of one image have pairwise distinct
    identifiers. *)
Theorem functional_tests_wait_for_their_build
    (data : cloudBuildTemplateData) (i : nat) (b : imageBuildTemplateData) :
  Parallel data = true →
  ImageBuilds data !! i = Some b →
  (∃ ident,
     yaml.id (buildStep (Parallel data) b) = Some ident
     ∧ Forall (λ s, yaml.waitFor s = Some [ident])
         (functionalTestSteps (Parallel data) i b))
  ∧ Forall (λ s, is_Some (yaml.id s)) (functionalTestSteps (Parallel data) i b)
  ∧ NoDup (yaml.id <$> functionalTestSteps (Parallel data) i b).
Proof.
  intros Hpar Hb. rewrite Hpar. split; [|split].
  - exists (imageId (Tag b)). split.
    + unfold buildStep.
      by destruct (Builder b), (negb (BuilderImage b =? "")%string).
    + apply Forall_forall.
      by intros s (j & test & -> & _)%elem_of_lookup_imap.
  - apply Forall_forall.
    intros s (j & test & -> & _)%elem_of_lookup_imap. by eexists.
  - unfold functionalTestSteps. rewrite fmap_imap.
    apply NoDup_alt. intros j1 j2 ident.
    rewrite !list_lookup_imap.
    destruct (FunctionalTests b !! j1) as [t1|]; [|done].
    destruct (FunctionalTests b !! j2) as [t2|]; [|done].
    cbn. intros [= <-] [= Heq].
    change (Tag b +:+ "-" +:+ pretty j2 = Tag b +:+ "-" +:+ pretty j1)
      in Heq.
    apply (inj (String.append (Tag b))) in Heq.
    apply (inj (String.append "-")) in Heq.
    apply (inj pretty) in Heq. by symmetry.
Qed.

Lemma functional_tests_wait_for_their_build_witness :
  ∃ data b,
    newCloudBuildTemplateData examples.someTests "gcr.io/p"
      (examples.manifest [examples.foo])
      (examples.withParallel examples.defaults false true) = Ok data
    ∧ ImageBuilds data !! 0%nat = Some b
    ∧ NoDup (yaml.id <$> functionalTestSteps (Parallel data) 0 b).
Proof.
  eexists _, _. split; [vm_compute; reflexivity|]. split; [reflexivity|].
  match goal with
  | |- NoDup (yaml.id <$> functionalTestSteps (Parallel ?data) _ ?b) =>
      exact (proj2 (proj2 (functional_tests_wait_for_their_build data 0%nat b
                             eq_refl eq_refl)))
  end.
Defined.

(** ** The UNIQUE variable *)

Section unique.

Lemma pretty_N_go_no_dash (x : N) (s : string) :
  "-"%char ∉ String.list_ascii_of_string s →
  "-"%char ∉ String.list_ascii_of_string (pretty_N_go x s).
Proof.
  revert s. induction (N.lt_wf_0 x) as [x _ IH]; intros s Hs.
  assert (x = 0 ∨ 0 < x)%N as [->|Hpos] by lia.
  - by rewrite pretty_N_go_0.
  - rewrite pretty_N_go_step by done. apply IH; [by apply N.div_lt|].
    cbn [String.list_ascii_of_string]. apply not_elem_of_cons. split; [|done].
    unfold pretty_N_char. by repeat case_match.
Qed.

Lemma pretty_nat_no_dash (n : nat) :
  "-"%char ∉ String.list_ascii_of_string (pretty n).
Proof.
  unfold pretty, pretty_nat, pretty, pretty_N. case_decide.
  - cbn. apply not_elem_of_cons. split; [done|apply not_elem_of_nil].
  - apply pretty_N_go_no_dash. apply not_elem_of_nil.
Qed.

(** Two strings without dash, each followed by a dash and more, agree
    piecewise when they agree as a whole. *)
Lemma dash_separates (d1 d2 e1 e2 : string) :
  "-"%char ∉ String.list_ascii_of_string d1 →
  "-"%char ∉ String.list_ascii_of_string d2 →
  d1 +:+ "-" +:+ e1 = d2 +:+ "-" +:+ e2 →
  d1 = d2 ∧ e1 = e2.
Proof.
  revert d2. induction d1 as [|c d1 IH]; intros [|c' d2] H1 H2 Heq;
    cbn [String.list_ascii_of_string] in *.
  - injection Heq as Heq. change (e1 = e2) in Heq. by subst.
  - injection Heq as <- _. destruct H2. by left.
  - injection Heq as -> _. destruct H1. by left.
  - rewrite !string_app_cons in Heq. injection Heq as -> Heq.
    apply not_elem_of_cons in H1 as [_ H1].
    apply not_elem_of_cons in H2 as [_ H2].
    destruct (IH d2 H1 H2 Heq) as [-> ->]. done.
Qed.

End unique.

(** X8: the [UNIQUE=<image index>-<test index>] variable handed to a
    functional test tells the steps apart: two functional-test steps get
    the same value exactly when they have the same image index and the same
    test index. *)
Theorem unique_variable_identifies_the_step
    (parallel1 parallel2 : bool) (primary1 primary2 test1 test2 : string)
    (imageIndex1 testIndex1 imageIndex2 testIndex2 : nat) :
  yaml.args (functionalTestStep parallel1 primary1 imageIndex1 testIndex1
               test1) !! 4%nat
  = yaml.args (functionalTestStep parallel2 primary2 imageIndex2 testIndex2
                 test2) !! 4%nat
  ↔ imageIndex1 = imageIndex2 ∧ testIndex1 = testIndex2.
Proof.
  cbn. split; [|by intros [-> ->]].
  intros [= Heq].
  change (pretty imageIndex1 +:+ "-" +:+ pretty testIndex1
          = pretty imageIndex2 +:+ "-" +:+ pretty testIndex2) in Heq.
  apply dash_separates in Heq as [Hi Hj]; try apply pretty_nat_no_dash.
  split; by apply (inj pretty).
Qed.

(** ** Tag expansion *)

(** X9: one full name [<registry>/<repo>:<tag>] per tag, or for the first
    tag alone under [FirstTagOnly]; every name comes from a tag of the
    version, and distinct tags give distinct names. *)
Theorem expandTags_one_name_per_tag
    (registry : string) (options : opts.cloudBuildOptions)
    (v : versions.Version) :
  length (expandTags registry options v)
  = (if opts.FirstTagOnly options
     then Nat.min 1 (length (versions.Tags v))
     else length (versions.Tags v))
  ∧ (∀ name, name ∈ expandTags registry options v →
             ∃ t, t ∈ versions.Tags v
                  ∧ name = registry +:+ "/" +:+ versions.Repo v +:+ ":" +:+ t)
  ∧ (NoDup (versions.Tags v) → NoDup (expandTags registry options v)).
Proof.
  rewrite expandTags_spec. split; [|split].
  - rewrite length_fmap.
    destruct (opts.FirstTagOnly options); [|done].
    by destruct (versions.Tags v).
  - intros name (t & -> & Ht)%list_elem_of_fmap. exists t. split; [|done].
    destruct (opts.FirstTagOnly options); [|done].
    by apply (subseteq_take 1).
  - intros Hnd.
    assert (Inj (=) (=) (fullName registry (versions.Repo v))) as Hinj.
    { intros t1 t2 Heq. unfold fullName in Heq.
      apply (inj (String.append registry)) in Heq.
      apply (inj (String.append "/")) in Heq.
      apply (inj (String.append (versions.Repo v))) in Heq.
      by apply (inj (String.append ":")) in Heq. }
    apply (NoDup_fmap_2 _).
    destruct (opts.FirstTagOnly options); [|done].
    eapply sublist_NoDup; [|apply sublist_take]. done.
Qed.

(** ** The directory filter as a set *)

Section selection.

Lemma compileVersion_ext (registry : string)
    (options options' : opts.cloudBuildOptions) (st ft : list string)
    (v : versions.Version) :
  opts.FirstTagOnly options = opts.FirstTagOnly options' →
  compileVersion registry options st ft v
  = compileVersion registry options' st ft v.
Proof. intros Hfirst. unfold compileVersion, expandTags. by rewrite Hfirst. Qed.

(** The loop looks at the options for [FirstTagOnly] alone, and at the
    directory map for the directories of the versions alone. *)
Lemma versionLoop_ext (registry : string)
    (options options' : opts.cloudBuildOptions)
    (dirs dirs' : gmap string bool) (st ft : list string)
    (vs : list versions.Version) (data : cloudBuildTemplateData) :
  opts.FirstTagOnly options = opts.FirstTagOnly options' →
  (∀ v, v ∈ vs →
        index dirs (versions.Dir v) = index dirs' (versions.Dir v)) →
  versionLoop registry options dirs st ft vs data
  = versionLoop registry options' dirs' st ft vs data.
Proof.
  intros Hfirst. revert data.
  induction vs as [|v vs IH]; intros data Hdirs; [done|].
  rewrite !versionLoop_cons.
  rewrite <- (Hdirs v) by left.
  rewrite <- (compileVersion_ext registry options options' st ft v Hfirst).
  unfold expandTags. rewrite <- Hfirst.
  destruct (index dirs (versions.Dir v)).
  - destruct (compileVersion registry options st ft v); [|done].
    cbn [mbind result_bind]. apply IH. intros u Hu. apply Hdirs. by right.
  - apply IH. intros u Hu. apply Hdirs. by right.
Qed.

Lemma selected_nil (spec : versions.Spec) (options : opts.cloudBuildOptions) :
  opts.Directories options ≠ [] →
  (∀ v, v ∈ versions.Versions spec →
        versions.Dir v ∉ opts.Directories options) →
  selected spec options = [].
Proof.
  intros Hne Hnone. unfold selected, inSelection.
  destruct (opts.Directories options) as [|d ds]; [done|].
  induction (versions.Versions spec) as [|v vs IH]; [done|].
  cbn [List.filter]. rewrite bool_decide_eq_false_2 by (apply Hnone; by left).
  apply IH. intros u Hu. apply Hnone. by right.
Qed.

End selection.

(** X10: the directory filter is a set: two lists of directories with
    the same elements, in any order and with any repetitions, give the
    same result, plan or failure. *)
Theorem directory_filter_is_a_set
    (fs : fileSystem) (registry : string) (spec : versions.Spec)
    (options : opts.cloudBuildOptions) (D D' : list string) :
  (∀ d, d ∈ D ↔ d ∈ D') →
  newCloudBuildTemplateData fs registry spec
    (examples.withDirectories options D)
  = newCloudBuildTemplateData fs registry spec
      (examples.withDirectories options D').
Proof.
  intros Hsame. unfold newCloudBuildTemplateData.
  change (extractTests fs (examples.withDirectories options D))
    with (extractTests fs options).
  change (extractTests fs (examples.withDirectories options D'))
    with (extractTests fs options).
  destruct (extractTests fs options) as [[st ft]|e]; [|done].
  cbn [mbind result_bind].
  match goal with
  | |- ?l ≫= _ = ?r ≫= _ => assert (l = r) as ->; [|reflexivity]
  end.
  apply versionLoop_ext; [done|].
  intros v Hv. rewrite !selectDirs_spec by done.
  unfold inSelection. cbn [opts.Directories examples.withDirectories].
  destruct D as [|d ds], D' as [|d' ds']; [done| | |].
  - pose proof (proj2 (Hsame d') ltac:(by left)) as Hin.
    by apply elem_of_nil in Hin.
  - pose proof (proj1 (Hsame d) ltac:(by left)) as Hin.
    by apply elem_of_nil in Hin.
  - apply bool_decide_ext, Hsame.
Qed.

Lemma directory_filter_is_a_set_witness :
  newCloudBuildTemplateData examples.noTests "gcr.io/p"
    (examples.manifest [examples.foo; examples.bar])
    (examples.withDirectories examples.defaults ["b"; "a"; "b"])
  = newCloudBuildTemplateData examples.noTests "gcr.io/p"
      (examples.manifest [examples.foo; examples.bar])
      (examples.withDirectories examples.defaults ["a"; "b"]).
Proof.
  apply directory_filter_is_a_set. intros d.
  rewrite !elem_of_cons, !elem_of_nil. tauto.
Defined.

(** X11: a directory filter that matches no version of the manifest is
    not an error: the plan is produced, without steps and without
    images, provided the tests can be read. *)
Theorem unmatched_directory_filter_gives_empty_plan
    (fs : fileSystem) (registry : string) (spec : versions.Spec)
    (options : opts.cloudBuildOptions) :
  opts.Directories options ≠ [] →
  (∀ v, v ∈ versions.Versions spec →
        versions.Dir v ∉ opts.Directories options) →
  succeeds (extractTests fs options) = true →
  ∃ data,
    newCloudBuildTemplateData fs registry spec options = Ok data
    ∧ ImageBuilds data = [] ∧ AllImages data = [].
Proof.
  intros Hne Hnone Hread.
  pose proof (selected_nil spec options Hne Hnone) as Hsel.
  destruct (newCloudBuildTemplateData_total fs registry spec options Hread)
    as [data Hdata]; [by rewrite Hsel|].
  exists data. split; [done|].
  pose proof Hdata as [Hsteps _]%steps_of_plan.
  apply newCloudBuildTemplateData_Ok in Hdata as (st & ft & _ & _ & Hplan).
  rewrite Hsel in Hsteps. apply Forall2_nil_inv_l in Hsteps.
  split; [done|]. rewrite Hplan. cbn. by rewrite Hsel.
Qed.

Lemma unmatched_directory_filter_gives_empty_plan_witness :
  ∃ data,
    newCloudBuildTemplateData examples.someTests "gcr.io/p"
      (examples.manifest [examples.foo; examples.plain "c" "baz" []])
      (examples.withDirectories examples.defaults ["zz"]) = Ok data
    ∧ ImageBuilds data = [] ∧ AllImages data = [].
Proof.
  apply unmatched_directory_filter_gives_empty_plan.
  - discriminate.
  - apply Forall_forall. compute_done.
  - reflexivity.
Defined.

(** ** Manifests put together and taken apart *)

Section manifests.

Variables (fs : fileSystem) (registry : string).
Variable options : opts.cloudBuildOptions.

Lemma selected_app (vs1 vs2 : list versions.Version) :
  selected {| versions.Versions := vs1 ++ vs2 |} options
  = selected {| versions.Versions := vs1 |} options
    ++ selected {| versions.Versions := vs2 |} options.
Proof. unfold selected. cbn [versions.Versions]. apply List.filter_app. Qed.

Lemma shippable_app (vs1 vs2 : list versions.Version) :
  shippable registry options (vs1 ++ vs2)
  = shippable registry options vs1 ++ shippable registry options vs2.
Proof.
  unfold shippable. by rewrite List.filter_app, fmap_app, join_app.
Qed.

Lemma filter_filter_comm {A} (f g : A → bool) (l : list A) :
  List.filter f (List.filter g l) = List.filter g (List.filter f l).
Proof.
  induction l as [|x l IH]; [done|]. cbn [List.filter].
  destruct (f x) eqn:Hf, (g x) eqn:Hg; cbn [List.filter];
    rewrite ?Hf, ?Hg; by rewrite IH.
Qed.

Lemma filter_idemp {A} (f : A → bool) (l : list A) :
  List.filter f (List.filter f l) = List.filter f l.
Proof.
  induction l as [|x l IH]; [done|]. cbn [List.filter].
  destruct (f x) eqn:Hf; cbn [List.filter]; rewrite ?Hf; by rewrite IH.
Qed.

Lemma Forall2_filter {A B} (P : A → B → Prop) (f : A → bool) (g : B → bool)
    (l : list A) (k : list B) :
  (∀ x y, P x y → f x = g y) →
  Forall2 P l k → Forall2 P (List.filter f l) (List.filter g k).
Proof.
  intros Hfg Hall. induction Hall as [|x y l k Hxy _ IH]; [constructor|].
  cbn [List.filter]. rewrite <- (Hfg x y Hxy).
  destruct (f x); [by constructor|done].
Qed.

End manifests.

(** X12: compiling two manifests put end to end gives the steps and the
    images of the first followed by those of the second: the combined
    manifest has a plan exactly when both parts have one. *)
Theorem plan_of_concatenated_manifests
    (fs : fileSystem) (registry : string) (options : opts.cloudBuildOptions)
    (vs1 vs2 : list versions.Version) :
  (∀ data,
     newCloudBuildTemplateData fs registry
       {| versions.Versions := vs1 ++ vs2 |} options = Ok data →
     ∃ data1 data2,
       newCloudBuildTemplateData fs registry
         {| versions.Versions := vs1 |} options = Ok data1
       ∧ newCloudBuildTemplateData fs registry
           {| versions.Versions := vs2 |} options = Ok data2
       ∧ ImageBuilds data = ImageBuilds data1 ++ ImageBuilds data2
       ∧ AllImages data = AllImages data1 ++ AllImages data2)
  ∧ (∀ data1 data2,
       newCloudBuildTemplateData fs registry
         {| versions.Versions := vs1 |} options = Ok data1 →
       newCloudBuildTemplateData fs registry
         {| versions.Versions := vs2 |} options = Ok data2 →
       ∃ data,
         newCloudBuildTemplateData fs registry
           {| versions.Versions := vs1 ++ vs2 |} options = Ok data
         ∧ ImageBuilds data = ImageBuilds data1 ++ ImageBuilds data2
         ∧ AllImages data = AllImages data1 ++ AllImages data2).
Proof.
  split.
  - intros data (st & ft & Hext & Hall & Hplan)%newCloudBuildTemplateData_Ok.
    rewrite selected_app in Hall, Hplan.
    apply Forall2_app_inv_l in Hall as (s1 & s2 & H1 & H2 & Hsteps).
    eexists {| ImageBuilds := s1 |}, {| ImageBuilds := s2 |}.
    split; [|split; [|split]].
    + apply newCloudBuildTemplateData_Ok. exists st, ft. by cbn.
    + apply newCloudBuildTemplateData_Ok. exists st, ft. by cbn.
    + done.
    + rewrite Hplan. cbn. apply shippable_app.
  - intros data1 data2
      (st & ft & Hext & H1 & Hplan1)%newCloudBuildTemplateData_Ok
      (st' & ft' & Hext' & H2 & Hplan2)%newCloudBuildTemplateData_Ok.
    rewrite Hext in Hext'. injection Hext' as <- <-.
    eexists {| ImageBuilds := ImageBuilds data1 ++ ImageBuilds data2 |}.
    split; [|split].
    + apply newCloudBuildTemplateData_Ok. exists st, ft.
      split; [done|]. rewrite selected_app. cbn.
      split; [by apply Forall2_app|done].
    + done.
    + assert (AllImages data1
              = shippable registry options
                  (selected {| versions.Versions := vs1 |} options)) as ->
        by by rewrite Hplan1.
      assert (AllImages data2
              = shippable registry options
                  (selected {| versions.Versions := vs2 |} options)) as ->
        by by rewrite Hplan2.
      rewrite <- shippable_app. reflexivity.
Qed.

(** X13: dropping the builder-only versions from a manifest that compiles
    gives a manifest that compiles to the same image list; its steps are
    the steps of the versions that remain. *)
Theorem dropping_builders_keeps_the_image_list
    (fs : fileSystem) (registry : string) (spec : versions.Spec)
    (options : opts.cloudBuildOptions) (data : cloudBuildTemplateData) :
  newCloudBuildTemplateData fs registry spec options = Ok data →
  ∃ data',
    newCloudBuildTemplateData fs registry (withoutBuilders spec) options
    = Ok data'
    ∧ AllImages data' = AllImages data
    ∧ ImageBuilds data' = List.filter (λ b, negb (Builder b)) (ImageBuilds data).
Proof.
  intros (st & ft & Hext & Hall & Hplan)%newCloudBuildTemplateData_Ok.
  assert (Hsel : selected (withoutBuilders spec) options
                 = List.filter (λ v, negb (versions.Builder v))
                     (selected spec options)).
  { unfold selected, withoutBuilders. cbn [versions.Versions].
    apply filter_filter_comm. }
  eexists {| ImageBuilds :=
               List.filter (λ b, negb (Builder b)) (ImageBuilds data) |}.
  split; [|split].
  - apply newCloudBuildTemplateData_Ok. exists st, ft. split; [done|].
    rewrite Hsel. cbn. split; [|done].
    apply Forall2_filter; [|done].
    intros v b (_ & _ & Hflag & _)%compileVersion_Ok. by rewrite Hflag.
  - cbn [AllImages]. unfold shippable. rewrite filter_idemp.
    by rewrite Hplan.
  - done.
Qed.

Lemma dropping_builders_keeps_the_image_list_witness :
  ∃ data',
    newCloudBuildTemplateData examples.noTests "gcr.io/p"
      (withoutBuilders
         (examples.manifest
            [examples.builderOnly examples.bar; examples.foo]))
      examples.defaults = Ok data'
    ∧ AllImages data' = ["gcr.io/p/foo:1.0"; "gcr.io/p/foo:latest"].
Proof.
  destruct (dropping_builders_keeps_the_image_list examples.noTests
              "gcr.io/p"
              (examples.manifest
                 [examples.builderOnly examples.bar; examples.foo])
              examples.defaults _ ltac:(vm_compute; reflexivity))
    as (data' & Hdata' & Himages & _).
  exists data'. split; [exact Hdata'|exact Himages].
Defined.

(** ** The command line *)

Section command_line.

Lemma prefix_nil (s : string) : String.prefix "" s = true.
Proof. by destruct s. Qed.

Lemma prefix_char (c c' : ascii) (s : string) :
  String.prefix (String c "") (String c' s) = bool_decide (c = c').
Proof.
  cbn [String.prefix]. destruct (ascii_dec c c') as [->|Hne].
  - by rewrite prefix_nil, bool_decide_eq_true_2.
  - by rewrite bool_decide_eq_false_2.
Qed.

(** [Contains] of a one-byte string is membership of the byte. *)
Lemma Contains_char (c : ascii) (s : string) :
  Contains s (String c "") = true ↔ c ∈ String.list_ascii_of_string s.
Proof.
  induction s as [|c' s IH]; cbn [Contains String.list_ascii_of_string].
  - rewrite elem_of_nil. cbn. split; [discriminate|done].
  - rewrite prefix_char, orb_true_iff, bool_decide_eq_true, IH, elem_of_cons.
    done.
Qed.

Lemma Contains_char_false (c : ascii) (s : string) :
  Contains s (String c "") = false ↔ c ∉ String.list_ascii_of_string s.
Proof. rewrite <- Contains_char. by destruct (Contains s (String c "")). Qed.

Lemma list_ascii_app (s1 s2 : string) :
  String.list_ascii_of_string (s1 +:+ s2)
  = String.list_ascii_of_string s1 ++ String.list_ascii_of_string s2.
Proof.
  induction s1 as [|c s1 IH]; [done|].
  rewrite string_app_cons. cbn [String.list_ascii_of_string app].
  by rewrite IH.
Qed.

(** [strings.Replace(s, old, new, 1)] rewrites the first occurrence of a
    one-byte [old] and leaves the rest alone. *)
Lemma ReplaceOnce_first (c : ascii) (new before after : string) :
  c ∉ String.list_ascii_of_string before →
  ReplaceOnce (before +:+ String c after) (String c "") new
  = before +:+ new +:+ after.
Proof.
  induction before as [|c' before IH]; intros Hc.
  - rewrite !string_app_nil_l. cbn [ReplaceOnce].
    rewrite prefix_char, bool_decide_eq_true_2 by done.
    cbn [String.length String.substring Nat.sub].
    by rewrite Nat.sub_0_r, substring_all.
  - cbn [String.list_ascii_of_string] in Hc.
    apply not_elem_of_cons in Hc as [Hne Hc].
    rewrite !string_app_cons. cbn [ReplaceOnce].
    rewrite prefix_char, bool_decide_eq_false_2 by done.
    by rewrite IH.
Qed.

Lemma main_unfold (cfg : flags.config) (spec : versions.Spec)
    (fs : fileSystem) :
  flags.registry cfg ≠ "" →
  main cfg spec fs
  = printed
      (renderCloudBuildConfig fs
         (if Contains (flags.registry cfg) ":"
          then ReplaceOnce (flags.registry cfg) ":" "/"
          else flags.registry cfg)
         spec
         (optionsOf cfg
            (if negb (String.eqb (flags.dirs cfg) "")
             then Split (flags.dirs cfg) ","%char else []))).
Proof.
  intros Hne%String.eqb_neq. unfold main. by rewrite Hne.
Qed.

End command_line.

(** X14: a colon in the registry is turned into a slash, the first one
    only: with the registry [<host>:<rest>], where [<host>] has no colon,
    the configuration is rendered for [<host>/<rest>], whatever [<rest>]
    is; so [<host>:<port>] and [<host>/<port>] print the same. *)
Theorem registry_first_colon_becomes_slash
    (cfg : flags.config) (spec : versions.Spec) (fs : fileSystem)
    (host rest : string) :
  Contains host ":" = false →
  main (withRegistry cfg (host +:+ ":" +:+ rest)) spec fs
  = printed
      (renderCloudBuildConfig fs (host +:+ "/" +:+ rest) spec
         (optionsOf cfg
            (if negb (String.eqb (flags.dirs cfg) "")
             then Split (flags.dirs cfg) ","%char else [])))
  ∧ (Contains rest ":" = false →
     main (withRegistry cfg (host +:+ ":" +:+ rest)) spec fs
     = main (withRegistry cfg (host +:+ "/" +:+ rest)) spec fs).
Proof.
  intros Hhost%Contains_char_false.
  assert (Hcolon : main (withRegistry cfg (host +:+ ":" +:+ rest)) spec fs
            = printed
                (renderCloudBuildConfig fs (host +:+ "/" +:+ rest) spec
                   (optionsOf cfg
                      (if negb (String.eqb (flags.dirs cfg) "")
                       then Split (flags.dirs cfg) ","%char else [])))).
  { rewrite main_unfold by (cbn; by destruct host).
    cbn [flags.registry flags.dirs withRegistry].
    assert (Contains (host +:+ ":" +:+ rest) ":" = true) as ->.
    { apply Contains_char. rewrite list_ascii_app, elem_of_app. right.
      by left. }
    change (host +:+ ":" +:+ rest) with (host +:+ String ":" rest).
    by rewrite (ReplaceOnce_first ":" "/" host rest Hhost). }
  split; [done|].
  intros Hrest%Contains_char_false. rewrite Hcolon.
  rewrite main_unfold by (cbn; by destruct host).
  cbn [flags.registry flags.dirs withRegistry].
  assert (Contains (host +:+ "/" +:+ rest) ":" = false) as ->; [|done].
  apply Contains_char_false. rewrite list_ascii_app, not_elem_of_app.
  split; [done|]. cbn [String.list_ascii_of_string].
  change ("/" +:+ rest) with (String "/" rest).
  cbn [String.list_ascii_of_string]. by apply not_elem_of_cons.
Qed.

Lemma registry_first_colon_becomes_slash_witness :
  main (withRegistry examples.someFlags "localhost:5000:x")
    (examples.manifest [examples.bar]) examples.noTests
  = printed
      (renderCloudBuildConfig examples.noTests "localhost/5000:x"
         (examples.manifest [examples.bar])
         (optionsOf examples.someFlags [])).
Proof.
  exact (proj1 (registry_first_colon_becomes_slash examples.someFlags
                  (examples.manifest [examples.bar]) examples.noTests
                  "localhost" "5000:x" eq_refl)).
Defined.

(** X15: [main] stops with [--registry flag is required] exactly when the
    registry is empty; no manifest, file system or other option produces
    that message. *)
Theorem registry_required_exactly_when_empty
    (cfg : flags.config) (spec : versions.Spec) (fs : fileSystem) :
  main cfg spec fs = Err (LogFatal "--registry flag is required")
  ↔ flags.registry cfg = "".
Proof.
  split; [|intros Hnil; unfold main; by rewrite Hnil].
  intros Hmain. destruct (decide (flags.registry cfg = "")) as [|Hne]; [done|].
  exfalso. rewrite main_unfold in Hmain by done.
  unfold printed, renderCloudBuildConfig in Hmain.
  destruct (newCloudBuildTemplateData _ _ _ _) as [data|e] eqn:Hdata.
  { cbn [mbind result_bind] in Hmain. by destruct (executeTemplate data). }
  cbn [mbind result_bind] in Hmain. injection Hmain as ->.
  apply newCloudBuildTemplateData_Err_inv in Hdata as [Hext|(v & _ & Hv)].
  - rewrite extractTests_found in Hext.
    repeat match type of Hext with
           | (if ?c then _ else _) = _ => destruct c
           end; discriminate.
  - apply compileVersion_Err in Hv as [(x & _ & Hx)|[Hx _]]; discriminate.
Qed.

(** ** The directories flag *)

Section split.

Variable sep : ascii.

Lemma Split_nonempty (s : string) : Split s sep ≠ [].
Proof.
  destruct s as [|c s]; cbn [Split]; [done|].
  destruct (Ascii.eqb c sep); [done|]. by destruct (Split s sep).
Qed.

Lemma concat_cons_cons (x y : string) (l : list string) :
  String.concat (String sep "") (x :: y :: l)
  = x +:+ String sep (String.concat (String sep "") (y :: l)).
Proof. reflexivity. Qed.

(** Joining the pieces with the separator gives the string back. *)
Lemma concat_Split (s : string) :
  String.concat (String sep "") (Split s sep) = s.
Proof.
  induction s as [|c s IH]; [done|]. cbn [Split].
  pose proof (Split_nonempty s) as Hne.
  destruct (Split s sep) as [|piece pieces]; [done|].
  destruct (Ascii.eqb_spec c sep) as [->|Hc].
  - by rewrite concat_cons_cons, IH.
  - destruct pieces as [|piece' pieces].
    + change (String c piece = String c s). by rewrite <- IH.
    + rewrite concat_cons_cons, string_app_cons.
      by rewrite <- concat_cons_cons, IH.
Qed.

(** A piece without separator, followed by a separator, is split off. *)
Lemma Split_piece (piece rest : string) :
  sep ∉ String.list_ascii_of_string piece →
  Split (piece +:+ String sep rest) sep = piece :: Split rest sep.
Proof.
  induction piece as [|c piece IH]; intros Hfree.
  - rewrite string_app_nil_l. cbn [Split]. by rewrite Ascii.eqb_refl.
  - cbn [String.list_ascii_of_string] in Hfree.
    apply not_elem_of_cons in Hfree as [Hc Hfree].
    rewrite string_app_cons. cbn [Split].
    rewrite (proj2 (Ascii.eqb_neq c sep)) by done.
    by rewrite IH.
Qed.

Lemma Split_last (piece : string) :
  sep ∉ String.list_ascii_of_string piece → Split piece sep = [piece].
Proof.
  induction piece as [|c piece IH]; intros Hfree; [done|].
  cbn [String.list_ascii_of_string] in Hfree.
  apply not_elem_of_cons in Hfree as [Hc Hfree].
  cbn [Split]. rewrite (proj2 (Ascii.eqb_neq c sep)) by done.
  by rewrite IH.
Qed.

(** Splitting a joined list of pieces gives the pieces back. *)
Lemma Split_concat (pieces : list string) :
  pieces ≠ [] →
  Forall (λ piece, sep ∉ String.list_ascii_of_string piece) pieces →
  Split (String.concat (String sep "") pieces) sep = pieces.
Proof.
  intros Hne Hfree. induction Hfree as [|piece pieces Hpiece _ IH]; [done|].
  destruct pieces as [|piece' pieces].
  - by apply Split_last.
  - rewrite concat_cons_cons, Split_piece by done. by rewrite IH.
Qed.

End split.

(** X16: the directories flag is the comma-separated list of the
    directories to build: for a list of names without comma, joined by
    commas into a flag that is not empty, [main] renders the configuration
    with exactly that list as directory filter; and the pieces of any flag,
    joined by commas, give the flag back. *)
Theorem dirs_flag_is_the_comma_separated_list
    (cfg : flags.config) (spec : versions.Spec) (fs : fileSystem)
    (directories : list string) :
  flags.registry cfg ≠ "" →
  Forall (λ d, Contains d "," = false) directories →
  String.concat "," directories ≠ "" →
  main (withDirs cfg (String.concat "," directories)) spec fs
  = printed
      (renderCloudBuildConfig fs
         (if Contains (flags.registry cfg) ":"
          then ReplaceOnce (flags.registry cfg) ":" "/"
          else flags.registry cfg)
         spec (optionsOf cfg directories))
  ∧ String.concat "," (Split (String.concat "," directories) ","%char)
    = String.concat "," directories.
Proof.
  intros Hreg Hfree Hflag. split; [|apply concat_Split].
  rewrite main_unfold by done.
  cbn [flags.registry flags.dirs withDirs].
  rewrite (proj2 (String.eqb_neq _ _) Hflag). cbn [negb].
  rewrite Split_concat; [done| |].
  - intros ->. by destruct Hflag.
  - eapply Forall_impl; [exact Hfree|]. intros d Hd.
    by apply Contains_char_false.
Qed.

Lemma dirs_flag_is_the_comma_separated_list_witness :
  main (withDirs examples.someFlags "b,a")
    (examples.manifest [examples.foo; examples.bar]) examples.noTests
  = printed
      (renderCloudBuildConfig examples.noTests "gcr.io/p"
         (examples.manifest [examples.foo; examples.bar])
         (optionsOf examples.someFlags ["b"; "a"])).
Proof.
  refine (proj1 (dirs_flag_is_the_comma_separated_list examples.someFlags
                   (examples.manifest [examples.foo; examples.bar])
                   examples.noTests ["b"; "a"] _ _ _)).
  - discriminate.
  - repeat constructor.
  - discriminate.
Defined.

(** ** How exclusions are written *)

Section exclusion_names.

Lemma elem_of_found (fs : fileSystem) (dir path : string) :
  path ∈ found fs dir →
  ∃ f, path = testPath dir f ∧ isTestFile f = true.
Proof.
  unfold found. destruct (fs dir) as [| |files]; try by intros ?%elem_of_nil.
  intros (f & -> & Hf)%list_elem_of_fmap. exists f. split; [done|].
  by apply list_elem_of_In, List.filter_In in Hf as [_ ?].
Qed.

End exclusion_names.

(** X17: in a manifest that compiles, every exclusion of a selected
    version is the path of a discovered test relative to the workspace:
    [<dir>/<file>] with [<dir>] one of [tests], [tests/structure_tests] and
    [tests/functional_tests], and [<file>] ending in [_test.json] or
    [_test.yaml]. *)
Theorem exclusions_are_workspace_relative_test_paths
    (fs : fileSystem) (registry : string) (spec : versions.Spec)
    (options : opts.cloudBuildOptions) (data : cloudBuildTemplateData)
    (v : versions.Version) (excluded : string) :
  newCloudBuildTemplateData fs registry spec options = Ok data →
  v ∈ selected spec options →
  excluded ∈ versions.ExcludeTests v →
  ∃ dir file stem,
    excluded = dir +:+ "/" +:+ file
    ∧ dir ∈ ["tests"; "tests/structure_tests"; "tests/functional_tests"]
    ∧ (file = stem +:+ "_test.json" ∨ file = stem +:+ "_test.yaml").
Proof.
  intros Hdata Hv Hex. pose proof Hdata as [_ Hall]%steps_of_plan.
  rewrite Forall_forall in Hall. destruct (Hall v Hv) as (_ & Hcat & _).
  specialize (Hcat excluded Hex).
  apply newCloudBuildTemplateData_Ok in Hdata as (st & ft & Hext & _).
  unfold discoveredTests in Hcat. rewrite Hext in Hcat. cbn [fst snd] in Hcat.
  rewrite extractTests_found in Hext.
  assert (∃ dir,
            dir ∈ ["tests"; "tests/structure_tests"; "tests/functional_tests"]
            ∧ catalogPath excluded ∈ found fs dir) as (dir & Hdir & Hin).
  { repeat match type of Hext with
           | (if ?c then _ else _) = _ => destruct c
           end; try discriminate; injection Hext as <- <-.
    - by apply elem_of_nil in Hcat.
    - rewrite !elem_of_app in Hcat. destruct Hcat as [[?|?]|?].
      + exists "tests". split; [by left|done].
      + exists "tests/structure_tests". split; [right; by left|done].
      + exists "tests/functional_tests". split; [do 2 right; by left|done]. }
  apply elem_of_found in Hin as (f & Hpath & Hf).
  unfold catalogPath, testPath in Hpath.
  apply (inj (String.append workspacePrefix)) in Hpath.
  unfold isTestFile in Hf.
  apply andb_true_iff in Hf as [_ Hf]. apply orb_true_iff in Hf.
  rewrite !HasSuffix_iff in Hf.
  destruct Hf as [[stem Hname]|[stem Hname]]; exists dir, (Name f), stem;
    (split; [done|split; [done|]]); [by left|by right].
Qed.

Lemma exclusions_are_workspace_relative_test_paths_witness :
  ∃ dir file stem,
    "tests/functional_tests/b_test.json" = dir +:+ "/" +:+ file
    ∧ dir ∈ ["tests"; "tests/structure_tests"; "tests/functional_tests"]
    ∧ (file = stem +:+ "_test.json" ∨ file = stem +:+ "_test.yaml").
Proof.
  eapply (exclusions_are_workspace_relative_test_paths examples.someTests
            "gcr.io/p"
            (examples.manifest
               [examples.excluding examples.foo
                  ["tests/functional_tests/b_test.json"]])
            examples.defaults _
            (examples.excluding examples.foo
               ["tests/functional_tests/b_test.json"])).
  - vm_compute. reflexivity.
  - vm_compute. left.
  - vm_compute. left.
Defined.

(** ** Instances of the properties without premise *)


Lemma plan_of_concatenated_manifests_witness :
  ∃ data,
    newCloudBuildTemplateData examples.noTests "gcr.io/p"
      {| versions.Versions := [examples.foo] ++ [examples.bar] |}
      examples.defaults = Ok data
    ∧ AllImages data
      = ["gcr.io/p/foo:1.0"; "gcr.io/p/foo:latest"] ++ ["gcr.io/p/bar:2.0"].
Proof.
  destruct (proj2 (plan_of_concatenated_manifests examples.noTests "gcr.io/p"
                     examples.defaults [examples.foo] [examples.bar])
              _ _ ltac:(vm_compute; reflexivity) ltac:(vm_compute; reflexivity))
    as (data & Hdata & _ & Himages).
  exists data. split; [exact Hdata|exact Himages].
Defined.
